(** * Study-plan normalisation, time reflow and quiz evaluation

    A shallow embedding of the pure core of [src/index.tsx]:
    - the schedule normaliser ([transformedPlan], lines 163-196),
    - the clock-arithmetic helper ([addMinutes], lines 314-323),
    - the completion update ([updateTopicTiming], the state updater of
      lines 259-276),
    - quiz scoring ([evaluateAnswers], lines 339-352),
    - and, for the further properties, the log, the card title, the
      navigation buttons, the quiz modal, the completion prompt and the
      selection and processing of the syllabus.

    Conventions of the embedding.
    - A JavaScript number that is an integer is a [Z]; the only other
      number that the modelled code can produce from such inputs is [NaN].
      Arithmetic is exact, i.e. all integers are taken to lie in the range
      where IEEE doubles are exact; [parseInt], which makes a number from
      text, is modelled up to [MAX_SAFE_INTEGER] only.
    - A property of a JSON record that may be absent or [null] is a
      [field]: [Undefined], [Null] or [Val v].
    - A function is modelled on the type that the source declares for its
      input: [updateTopicTiming] and [evaluateAnswers] read the state,
      of type [Topic[]] and [Topic]; the normaliser reads the untyped
      response, whose records may lack any property.
    - An array is a [list].  The topic objects of a plan are pairwise
      distinct (each one is a fresh object literal of the normaliser), so
      the update is modelled on a list of topic values;
      [updateTopicTimingRef] is the same code on references into a store
      of objects, and [updateTopicTimingRef_refines] relates the two. *)

From Stdlib Require Import ZArith Lia Ascii String.
From stdpp Require Import gmap strings list pretty.

Open Scope Z_scope.

(** ** JavaScript values *)

(** A property read from a JSON object. *)
Inductive field (A : Type) : Type :=
  | Undefined
  | Null
  | Val (a : A).
Arguments Undefined {A}.
Arguments Null {A}.
Arguments Val {A} a.

(** A number: an integer or [NaN]. *)
Inductive jsnum : Type :=
  | NaN
  | Num (z : Z).

Global Instance jsnum_eq_dec : EqDecision jsnum.
Proof. solve_decision. Defined.

Global Instance field_eq_dec {A} `{EqDecision A} : EqDecision (field A).
Proof. solve_decision. Defined.

(** Truthiness of a string and of a number: the empty string, [0], [NaN],
    [null] and [undefined] are falsy. *)
Definition truthy_str (x : field string) : bool :=
  match x with
  | Val s => negb (String.eqb s "")
  | _ => false
  end.

Definition truthy_num (x : field Z) : bool :=
  match x with
  | Val n => negb (n =? 0)
  | _ => false
  end.

(** [x || d] where [x] is a numeric property and [d] a number. *)
Definition num_or (x : field Z) (d : Z) : Z :=
  match x with
  | Val n => if n =? 0 then d else n
  | _ => d
  end.

(** [x || y] on string properties: the left operand when it is truthy. *)
Definition str_or (x y : field string) : field string :=
  if truthy_str x then x else y.

(** [ToNumber]: [undefined] is [NaN], [null] is [0]. *)
Definition ToNumber (x : field Z) : jsnum :=
  match x with
  | Undefined => NaN
  | Null => Num 0
  | Val n => Num n
  end.

(** [a + b], [a - b] and [a > b] on numbers. *)
Definition js_add (a b : jsnum) : jsnum :=
  match a, b with
  | Num x, Num y => Num (x + y)
  | _, _ => NaN
  end.

Definition js_sub (a b : jsnum) : jsnum :=
  match a, b with
  | Num x, Num y => Num (x - y)
  | _, _ => NaN
  end.

Definition js_gt (a b : jsnum) : bool :=
  match a, b with
  | Num x, Num y => y <? x
  | _, _ => false
  end.

Definition js_le (a b : jsnum) : bool :=
  match a, b with
  | Num x, Num y => x <=? y
  | _, _ => false
  end.

(** [a === b] on properties of the same primitive type. *)
Definition strict_eq {A} `{EqDecision A} (a b : field A) : bool :=
  bool_decide (a = b).

(** ** Strings: [split], [Number], [padStart] *)

(** [s.split(sep)] for a one-character separator.  The result is never
    empty: [split sep ""] is [[""]]. *)
Fixpoint split (sep : ascii) (s : string) : list string :=
  match s with
  | EmptyString => [EmptyString]
  | String c s' =>
      if Ascii.eqb c sep then EmptyString :: split sep s'
      else match split sep s' with
           | p :: ps => String c p :: ps
           | [] => [String c EmptyString]
           end
  end.

Definition digit (c : ascii) : option Z :=
  let n := Z.of_nat (nat_of_ascii c) in
  if (48 <=? n) && (n <=? 57) then Some (n - 48) else None.

Fixpoint digits (acc : Z) (s : string) : option Z :=
  match s with
  | EmptyString => Some acc
  | String c s' =>
      match digit c with
      | Some d => digits (10 * acc + d) s'
      | None => None
      end
  end.

(** [Number(s)] on the strings that are an optionally signed, non-empty
    run of decimal digits, and on the empty string (which is [0]).
    [None] marks a string outside this fragment, where the JavaScript
    result may be a fraction, an infinity or [NaN]. *)
Definition Number (s : string) : option Z :=
  match s with
  | EmptyString => Some 0
  | String "-"%char EmptyString => None
  | String "+"%char EmptyString => None
  | String "-"%char s' => Z.opp <$> digits 0 s'
  | String "+"%char s' => digits 0 s'
  | _ => digits 0 s
  end.

Fixpoint replicate_char (n : nat) (c : ascii) : string :=
  match n with
  | O => EmptyString
  | S n' => String c (replicate_char n' c)
  end.

(** [s.padStart(n, c)] for a one-character pad. *)
Definition padStart (n : nat) (c : ascii) (s : string) : string :=
  replicate_char (n - String.length s) c +:+ s.

(** ** Clock arithmetic: [addMinutes] *)

(** Lines 315-316: [timeStr.split(' ')] and [time.split(':').map(Number)].
    The result is [(hour, min, period)]; [period] is [None] when the second
    piece is missing ([undefined]).  [None] means that [hour] or [min] is
    not an integer of the fragment of [Number]. *)
Definition parseTime (timeStr : string) : option (Z * Z * option string) :=
  let pieces := split " "%char timeStr in
  let time := default EmptyString (pieces !! 0%nat) in
  let period := pieces !! 1%nat in
  match split ":"%char time with
  | h :: m :: _ =>
      match Number h, Number m with
      | Some hour, Some min => Some (hour, min, period)
      | _, _ => None
      end
  | _ => None
  end.

(** Lines 319-322: the new hour, minute and period of a total. *)
Definition formatTime (totalMinutes : Z) : string :=
  let newHour :=
    let r := Z.rem (totalMinutes / 60) 12 in
    if r =? 0 then 12 else r in
  let newMin := Z.rem totalMinutes 60 in
  let newPeriod := if 720 <=? totalMinutes then "PM" else "AM" in
  pretty newHour +:+ ":" +:+ padStart 2 "0"%char (pretty newMin)
    +:+ " " +:+ newPeriod.

(** Lines 317-318: the total that is formatted. *)
Definition totalOf (hour min : Z) (period : option string) (minutes : Z) : Z :=
  let totalMinutes := hour * 60 + min + minutes in
  if bool_decide (period = Some "PM") && negb (hour =? 12)
  then totalMinutes + 720
  else totalMinutes.

Section Clock.
(** What [addMinutes] returns on a string whose hour or minute part is
    outside the fragment of [Number]: some string (the function never
    throws on a string), left unspecified. *)
Variable addMinutes_other : string -> Z -> string.

Definition addMinutes (timeStr : string) (minutes : Z) : string :=
  match parseTime timeStr with
  | Some (hour, min, period) => formatTime (totalOf hour min period minutes)
  | None => addMinutes_other timeStr minutes
  end.
End Clock.

(** ** The declared types [MCQ], [Session] and [Topic] (lines 24-48) *)

Record MCQ : Type := {
  question : string;
  options : list string;
  correct : string;
}.

Inductive SessionType : Type := Study | Qna | Break.

Module Session.
Record t : Type := {
  type : SessionType;
  start_time : string;
  end_time : string;
  duration : jsnum;
}.
End Session.

Record Topic : Type := {
  topic_id : Z;
  topic : string;
  start_time : string;
  end_time : string;
  allocated_time : jsnum;
  completed : bool;
  summary : string;
  qna : list MCQ;
  suggested_time : option jsnum;
  sessions : option (list Session.t);
}.

(** ** Completion and reflow: the updater of [updateTopicTiming] *)

(** [t.allocated_time = actualTime; t.completed = true]. *)
Definition markCompleted (actualTime : Z) (t : Topic) : Topic :=
  {| topic_id := topic_id t;
     topic := topic t;
     start_time := start_time t;
     end_time := end_time t;
     allocated_time := Num actualTime;
     completed := true;
     summary := summary t;
     qna := qna t;
     suggested_time := suggested_time t;
     sessions := sessions t |}.

Section Reflow.
Variable addMinutes_other : string -> Z -> string.
Local Abbreviation addMinutes := (addMinutes addMinutes_other).

(** The body of the loop of lines 269-272, on one topic:
    [t.start_time = addMinutes(t.start_time, -timeSaved);
     t.end_time = addMinutes(t.end_time, -timeSaved)]. *)
Definition shiftTopic (timeSaved : Z) (t : Topic) : Topic :=
  {| topic_id := topic_id t;
     topic := topic t;
     start_time := addMinutes (start_time t) (- timeSaved);
     end_time := addMinutes (end_time t) (- timeSaved);
     allocated_time := allocated_time t;
     completed := completed t;
     summary := summary t;
     qna := qna t;
     suggested_time := suggested_time t;
     sessions := sessions t |}.

(** [for (let i = start; i < newPlan.length; i++) ...]: [n] counts the
    iterations that are left. *)
Fixpoint shiftLoop (n : nat) (i : nat) (timeSaved : Z)
    (newPlan : list Topic) : list Topic :=
  match n with
  | O => newPlan
  | S n' => shiftLoop n' (S i) timeSaved (alter (shiftTopic timeSaved) i newPlan)
  end.

(** Lines 259-276.  [findIndex] returning [-1] is [None]. *)
Definition updateTopicTiming (prev : list Topic) (topicId actualTime : Z)
    : list Topic :=
  let newPlan := prev in
  match list_find (fun t => topic_id t = topicId) newPlan with
  | Some (topicIndex, t) =>
      let timeSaved := js_sub (allocated_time t) (Num actualTime) in
      let newPlan := <[topicIndex := markCompleted actualTime t]> newPlan in
      match timeSaved with
      | Num saved =>
          if 0 <? saved
          then shiftLoop (length newPlan - (topicIndex + 1)) (topicIndex + 1)
                 saved newPlan
          else newPlan
      | NaN => newPlan
      end
  | None => newPlan
  end.
End Reflow.

(** ** The plan as an array of references

    In the source the plan is an array of references to topic objects:
    [[...prev]] copies the references, and the assignments of lines 265-271
    change the objects, which [prev] shares.  [objs] maps a reference to
    its object. *)

Section ReflowRef.
Variable addMinutes_other : string -> Z -> string.

Fixpoint shiftLoopRef (n : nat) (i : nat) (timeSaved : Z)
    (newPlan : list nat) (objs : gmap nat Topic) : gmap nat Topic :=
  match n with
  | O => objs
  | S n' =>
      shiftLoopRef n' (S i) timeSaved newPlan
        match newPlan !! i with
        | Some r => alter (shiftTopic addMinutes_other timeSaved) r objs
        | None => objs
        end
  end.

Definition updateTopicTimingRef (objs : gmap nat Topic) (prev : list nat)
    (topicId actualTime : Z) : list nat * gmap nat Topic :=
  let newPlan := prev in
  match list_find (fun r => topic_id <$> objs !! r = Some topicId) newPlan with
  | Some (topicIndex, r) =>
      match objs !! r with
      | Some t =>
          let timeSaved := js_sub (allocated_time t) (Num actualTime) in
          let objs := <[r := markCompleted actualTime t]> objs in
          match timeSaved with
          | Num saved =>
              if 0 <? saved
              then (newPlan,
                    shiftLoopRef (length newPlan - (topicIndex + 1))
                      (topicIndex + 1) saved newPlan objs)
              else (newPlan, objs)
          | NaN => (newPlan, objs)
          end
      | None => (newPlan, objs)
      end
  | None => (newPlan, objs)
  end.
End ReflowRef.

(** The topics that an array of references shows. *)
Definition readPlan (objs : gmap nat Topic) (plan : list nat)
    : list (option Topic) :=
  (fun r => objs !! r) <$> plan.

(** [setStudyPlan(transformedPlan)]: the array of the fresh objects that the
    normaliser built, one per topic. *)
Definition freshPlan (topics : list Topic) : list nat * gmap nat Topic :=
  (seq 0 (length topics), map_seq 0 topics).

(** ** The normaliser: [transformedPlan] *)

(** A record of [response.data.schedule]; every property may be absent. *)
Module Item.
Record t : Type := {
  topic : field string;
  topic_id : field Z;
  start_time : field string;
  end_time : field string;
  allocated_time : field Z;
  summary : field string;
  qna : field (list MCQ);
  type : field string;
  duration : field Z;
}.
End Item.

(** The object literal of lines 171-195.  [transformedPlan] is untyped in
    the source, its string and number properties are copies of JSON
    properties. *)
Module Transformed.
Record session : Type := {
  type : string;
  s_start_time : field string;
  s_end_time : field string;
  duration : field Z;
}.

Record t : Type := {
  topic_id : Z;
  topic : field string;
  start_time : field string;
  end_time : field string;
  allocated_time : jsnum;
  completed : bool;
  summary : field string;
  qna : list MCQ;
  suggested_time : Z;
  sessions : list session;
}.
End Transformed.

(** [o?.p]: [undefined] when [o] is [undefined]. *)
Definition opt_chain {A B} (o : option A) (p : A -> field B) : field B :=
  match o with
  | Some x => p x
  | None => Undefined
  end.

(** Line 164: [item.topic && item.summary], as a condition. *)
Definition keep (item : Item.t) : bool :=
  truthy_str (Item.topic item) && truthy_str (Item.summary item).

(** Lines 167-169: the companion of [item] in the whole schedule. *)
Definition is_companion (item qna : Item.t) : bool :=
  strict_eq (Item.topic_id qna) (Item.topic_id item)
  && strict_eq (Item.type qna) (Val "qna").

Definition transformTopic (schedule : list Item.t) (index : nat)
    (item : Item.t) : Transformed.t :=
  let qnaSession := List.find (is_companion item) schedule in
  {| Transformed.topic_id := Z.of_nat index + 1;
     Transformed.topic := Item.topic item;
     Transformed.start_time := Item.start_time item;
     Transformed.end_time :=
       str_or (opt_chain qnaSession Item.end_time) (Item.end_time item);
     Transformed.allocated_time :=
       js_add (ToNumber (Item.allocated_time item))
              (Num (num_or (opt_chain qnaSession Item.duration) 0));
     Transformed.completed := false;
     Transformed.summary := Item.summary item;
     Transformed.qna :=
       match Item.qna item with Val q => q | _ => [] end;
     Transformed.suggested_time := num_or (Item.allocated_time item) 30;
     Transformed.sessions :=
       {| Transformed.type := "study";
          Transformed.s_start_time := Item.start_time item;
          Transformed.s_end_time := Item.end_time item;
          Transformed.duration := Val (num_or (Item.allocated_time item) 30) |}
       :: match qnaSession with
          | Some q =>
              [ {| Transformed.type := "qna";
                   Transformed.s_start_time := Item.start_time q;
                   Transformed.s_end_time := Item.end_time q;
                   Transformed.duration := Item.duration q |} ]
          | None => []
          end |}.

Definition transformedPlan (schedule : list Item.t) : list Transformed.t :=
  imap (transformTopic schedule) (List.filter keep schedule).

(** [setStudyPlan(transformedPlan)] stores the untyped plan in a state of
    type [Topic[]].  [asTopic] is that step for one topic: it succeeds when
    every property has the type that [Topic] declares. *)
Definition asString (x : field string) : option string :=
  match x with
  | Val s => Some s
  | _ => None
  end.

Definition asNumber (x : field Z) : option jsnum :=
  match x with
  | Val n => Some (Num n)
  | _ => None
  end.

Definition asSessionType (s : string) : option SessionType :=
  if String.eqb s "study" then Some Study
  else if String.eqb s "qna" then Some Qna
  else if String.eqb s "break" then Some Break
  else None.

Definition asSession (s : Transformed.session) : option Session.t :=
  ty ← asSessionType (Transformed.type s);
  start ← asString (Transformed.s_start_time s);
  finish ← asString (Transformed.s_end_time s);
  dur ← asNumber (Transformed.duration s);
  Some {| Session.type := ty; Session.start_time := start;
          Session.end_time := finish; Session.duration := dur |}.

Definition asTopic (tp : Transformed.t) : option Topic :=
  name ← asString (Transformed.topic tp);
  start ← asString (Transformed.start_time tp);
  finish ← asString (Transformed.end_time tp);
  text ← asString (Transformed.summary tp);
  ss ← mapM asSession (Transformed.sessions tp);
  Some {| topic_id := Transformed.topic_id tp;
          topic := name;
          start_time := start;
          end_time := finish;
          allocated_time := Transformed.allocated_time tp;
          completed := Transformed.completed tp;
          summary := text;
          qna := Transformed.qna tp;
          suggested_time := Some (Num (Transformed.suggested_time tp));
          sessions := Some ss |}.

(** ** Quiz scoring: [evaluateAnswers] *)

Record Result : Type := {
  r_question : string;
  r_correct : string;
  selected : option string;
  isCorrect : bool;
}.

(** The callback of [qna.map] (lines 343-352) threaded through the list:
    [index] is the position of the head of [qs], [score] the counter that
    the callback increments. *)
Fixpoint evaluateFrom (selectedAnswers : gmap nat string) (index : nat)
    (score : Z) (qs : list MCQ) : Z * list Result :=
  match qs with
  | [] => (score, [])
  | q :: qs' =>
      let isCorrect :=
        bool_decide (selectedAnswers !! index = Some (correct q)) in
      let score := if isCorrect then score + 1 else score in
      let r := {| r_question := question q;
                  r_correct := correct q;
                  selected := selectedAnswers !! index;
                  isCorrect := isCorrect |} in
      let '(score, results) := evaluateFrom selectedAnswers (S index) score qs' in
      (score, r :: results)
  end.

(** Lines 339-352: nothing when no topic is selected, else the score and
    the per-question results handed to the alert. *)
Definition evaluateAnswers (selectedTopicForQnA : option Topic)
    (selectedAnswers : gmap nat string) : option (Z * list Result) :=
  match selectedTopicForQnA with
  | None => None
  | Some t => Some (evaluateFrom selectedAnswers 0 0 (qna t))
  end.


(** ** Vocabulary of the specification, used to state the properties *)

(** A string property that is present and not empty. *)
Definition present_nonempty (x : field string) : Prop :=
  match x with
  | Val s => s <> EmptyString
  | _ => False
  end.

Global Instance present_nonempty_dec x : Decision (present_nonempty x).
Proof. destruct x; simpl; apply _. Defined.

(** A record that bears a topic: topic name and summary are present and
    non-empty. *)
Definition qualifies (item : Item.t) : Prop :=
  present_nonempty (Item.topic item) /\ present_nonempty (Item.summary item).

Global Instance qualifies_dec item : Decision (qualifies item).
Proof. unfold qualifies; apply _. Defined.

(** [q] has the backend [topic_id] of [item] and the type ["qna"]. *)
Definition companion_of (item q : Item.t) : Prop :=
  Item.topic_id q = Item.topic_id item /\ Item.type q = Val "qna".

(** [q], at position [j], is the first companion of [item] in input order. *)
Definition first_companion (schedule : list Item.t) (item : Item.t)
    (j : nat) (q : Item.t) : Prop :=
  schedule !! j = Some q
  /\ companion_of item q
  /\ forall (j' : nat) (q' : Item.t),
       (j' < j)%nat -> schedule !! j' = Some q' -> ~ companion_of item q'.

Definition no_companion (schedule : list Item.t) (item : Item.t) : Prop :=
  forall q, q ∈ schedule -> ~ companion_of item q.

(** The sum of the durations of a session breakdown, with JavaScript's
    [+]. *)
Definition sessionsTotal (ss : list Transformed.session) : jsnum :=
  foldr (fun s acc => js_add (ToNumber (Transformed.duration s)) acc) (Num 0) ss.

(** The result recorded for question [q] at position [i]. *)
Definition resultAt (answers : gmap nat string) (i : nat) (q : MCQ) : Result :=
  {| r_question := question q;
     r_correct := correct q;
     selected := answers !! i;
     isCorrect := bool_decide (answers !! i = Some (correct q)) |}.

(** The quiz questions answered correctly: the positions [i] with
    [answers[i]] equal to the correct key of question [i]. *)
Definition correctlyAnswered (quiz : list MCQ) (answers : gmap nat string)
    : list (nat * MCQ) :=
  filter (fun iq => answers !! iq.1 = Some (correct iq.2)) (imap pair quiz).

(** The clock string ["H:MM AM|PM"] of an hour, a minute and a period. *)
Definition periodName (pm : bool) : string := if pm then "PM" else "AM".

Definition clockString (h m : Z) (pm : bool) : string :=
  pretty h +:+ ":" +:+ padStart 2 "0"%char (pretty m) +:+ " " +:+ periodName pm.

(** A valid 12-hour clock reading: hour 1 to 12, minute 0 to 59. *)
Definition valid_clock (h m : Z) : Prop := 1 <= h <= 12 /\ 0 <= m <= 59.

(** Minutes since midnight in the usual 12-hour convention: 12 AM is
    hour 0, 12 PM is hour 12. *)
Definition minutesSinceMidnight (h m : Z) (pm : bool) : Z :=
  (h mod 12) * 60 + m + (if pm then 720 else 0).

(** ** Sample data used by the closed examples *)

Definition sampleTopic (id : Z) (start finish : string) (minutes : Z) : Topic :=
  {| topic_id := id;
     topic := "Topic";
     start_time := start;
     end_time := finish;
     allocated_time := Num minutes;
     completed := false;
     summary := "Summary";
     qna := [];
     suggested_time := Some (Num minutes);
     sessions := None |}.

(** Three topics of 30 minutes starting 9:00, 9:30 and 10:00 AM. *)
Definition samplePlan : list Topic :=
  [ sampleTopic 1 "9:00 AM" "9:30 AM" 30;
    sampleTopic 2 "9:30 AM" "10:00 AM" 30;
    sampleTopic 3 "10:00 AM" "10:30 AM" 30 ].

(** Two topics of 30 minutes in the first hour of the day, 12:00 to
    12:30 AM and 12:30 to 1:00 AM. *)
Definition nightPlan : list Topic :=
  [ sampleTopic 1 "12:00 AM" "12:30 AM" 30;
    sampleTopic 2 "12:30 AM" "1:00 AM" 30 ].

Definition studyItem (id alloc : field Z) (finish : field string) : Item.t :=
  {| Item.topic := Val "Algebra";
     Item.topic_id := id;
     Item.start_time := Val "9:00 AM";
     Item.end_time := finish;
     Item.allocated_time := alloc;
     Item.summary := Val "Groups and rings";
     Item.qna := Undefined;
     Item.type := Val "study";
     Item.duration := Undefined |}.

Definition qnaItem (id : field Z) (finish : field string) (dur : field Z)
    : Item.t :=
  {| Item.topic := Undefined;
     Item.topic_id := id;
     Item.start_time := Val "9:30 AM";
     Item.end_time := finish;
     Item.allocated_time := Undefined;
     Item.summary := Undefined;
     Item.qna := Undefined;
     Item.type := Val "qna";
     Item.duration := dur |}.

(** A study record of 30 minutes and its Q&A record without [end_time]. *)
Definition scheduleNoEnd : list Item.t :=
  [ studyItem (Val 1) (Val 30) (Val "9:30 AM");
    qnaItem (Val 1) Undefined (Val 10) ].

(** A study record without [allocated_time] and no Q&A record. *)
Definition scheduleNoAllocation : list Item.t :=
  [ studyItem (Val 1) Undefined (Val "9:30 AM") ].

(** A study record without [allocated_time] and a Q&A record of 10
    minutes. *)
Definition scheduleNoAllocationQna : list Item.t :=
  [ studyItem (Val 1) Undefined (Val "9:30 AM");
    qnaItem (Val 1) (Val "9:40 AM") (Val 10) ].

(** A study record with [allocated_time] 0 and a Q&A record of 10 minutes. *)
Definition scheduleZeroAllocation : list Item.t :=
  [ studyItem (Val 1) (Val 0) (Val "9:30 AM");
    qnaItem (Val 1) (Val "9:40 AM") (Val 10) ].

(** A quiz of two questions and an answer map without an entry for the
    second one. *)
Definition sampleQuiz : list MCQ :=
  [ {| question := "What is a group?";
       options := ["a) A set with an operation"; "b) A number";
                   "c) A function"; "d) A graph"];
       correct := "a" |};
    {| question := "Why are rings important?";
       options := ["a) Reason 1"; "b) Reason 2"; "c) Reason 3";
                   "d) All of the above"];
       correct := "d" |} ].

Definition sampleQuizTopic : Topic :=
  {| topic_id := 1;
     topic := "Algebra";
     start_time := "9:00 AM";
     end_time := "9:30 AM";
     allocated_time := Num 30;
     completed := false;
     summary := "Groups and rings";
     qna := sampleQuiz;
     suggested_time := Some (Num 30);
     sessions := None |}.

Definition sampleAnswers : gmap nat string := {[ 0%nat := "a" ]}.

(** Three study records of 30 minutes, no Q&A record. *)
Definition rawStudy (id : Z) (start finish : string) : Item.t :=
  {| Item.topic := Val "Topic";
     Item.topic_id := Val id;
     Item.start_time := Val start;
     Item.end_time := Val finish;
     Item.allocated_time := Val 30;
     Item.summary := Val "Summary";
     Item.qna := Undefined;
     Item.type := Val "study";
     Item.duration := Undefined |}.

Definition sampleSchedule : list Item.t :=
  [ rawStudy 11 "9:00 AM" "9:30 AM";
    rawStudy 12 "9:30 AM" "10:00 AM";
    rawStudy 13 "10:00 AM" "10:30 AM" ].

(** Two objects, the second one referenced twice. *)
Definition aliasedObjs : gmap nat Topic :=
  {[ 0%nat := sampleTopic 1 "9:00 AM" "9:30 AM" 30;
     1%nat := sampleTopic 2 "9:30 AM" "10:00 AM" 30 ]}.

Definition aliasedPlan : list nat := [0%nat; 1%nat; 1%nat].

(** Some instance of the unspecified part of [addMinutes], to close the
    examples; it is never reached on the clock strings used there. *)
Definition sampleOther (timeStr : string) (minutes : Z) : string := timeStr.

(** ** Further functions of the application *)

(** *** The log: [addLog] (lines 76-81) *)

(** [arr.slice(-n)]: the last [n] elements, all of them when there are
    fewer. *)
Definition slice_last {A : Type} (n : nat) (l : list A) : list A :=
  drop (length l - n) l.

(** The time stamp [new Date().toISOString()] is an input. *)
Definition addLog (timestamp message : string) (prev : list string)
    : list string :=
  let logMessage := "[" +:+ timestamp +:+ "] " +:+ message in
  slice_last 50 (prev ++ [logMessage]).

(** *** The title of a card: [topic.topic.replace(/\*\*/g, '')] (line 391) *)

Fixpoint stripBold (s : string) : string :=
  match s with
  | EmptyString => EmptyString
  | String c s1 =>
      match s1 with
      | String c' s2 =>
          if Ascii.eqb c "*" && Ascii.eqb c' "*" then stripBold s2
          else String c (stripBold s1)
      | EmptyString => String c EmptyString
      end
  end.

(** *** Navigation: the Previous and Next buttons (lines 594-623) *)

Inductive NavEffect : Type :=
  | ScrollTo (y : Z)
  | AlertComplete.

(** [scrollToCurrentTopic] (lines 325-330) scrolls to
    [currentTopicIndex * 220]. *)
Definition scrollToCurrentTopic (currentTopicIndex : Z) : NavEffect :=
  ScrollTo (currentTopicIndex * 220).

(** The handlers test the [currentTopicIndex] of the render they belong
    to and update the state [prev] with a function. *)
Definition pressPrevious (currentTopicIndex prev : Z) : Z * list NavEffect :=
  if 0 <? currentTopicIndex
  then (prev - 1, [scrollToCurrentTopic currentTopicIndex])
  else (prev, []).

Definition pressNext (studyPlanLength : nat) (currentTopicIndex prev : Z)
    : Z * list NavEffect :=
  if currentTopicIndex <? Z.of_nat studyPlanLength - 1
  then (prev + 1, [scrollToCurrentTopic currentTopicIndex])
  else (prev, [AlertComplete]).

Inductive NavPress : Type := Previous | Next.

(** A sequence of presses, with a render between any two of them: each
    handler sees the current state. *)
Definition navigate (studyPlanLength : nat) (index : Z) (presses : list NavPress)
    : Z :=
  foldl (fun i p =>
           match p with
           | Previous => (pressPrevious i i).1
           | Next => (pressNext studyPlanLength i i).1
           end) index presses.

(** The label of the Next button (line 620). *)
Definition nextLabel (studyPlanLength : nat) (currentTopicIndex : Z) : string :=
  if currentTopicIndex =? Z.of_nat studyPlanLength - 1 then "Finish" else "Next".

(** The Mark Completed button of the card at position [index] is rendered
    when [index === currentTopicIndex && !topic.completed] (line 431). *)
Definition showsCompleteButton (currentTopicIndex : Z) (index : nat)
    (t : Topic) : bool :=
  (Z.of_nat index =? currentTopicIndex) && negb (completed t).

(** *** The quiz: answers and the default questions *)

(** [handleAnswerSelect] (lines 332-337): [{...prev, [questionIndex]:
    optionKey}]. *)
Definition handleAnswerSelect (questionIndex : nat) (optionKey : string)
    (prev : gmap nat string) : gmap nat string :=
  <[questionIndex := optionKey]> prev.

(** The Evaluate button is disabled when
    [Object.keys(selectedAnswers).length < (selectedTopicForQnA?.qna.length || 0)]
    (line 501). *)
Definition evaluateDisabled (selectedTopicForQnA : option Topic)
    (selectedAnswers : gmap nat string) : bool :=
  (size selectedAnswers <? match selectedTopicForQnA with
                           | Some t => length (qna t)
                           | None => 0
                           end)%nat.

Definition toLowerAscii (c : ascii) : ascii :=
  let n := nat_of_ascii c in
  if (65 <=? n)%nat && (n <=? 90)%nat then ascii_of_nat (n + 32) else c.

(** The options of the quiz modal render (lines 469-491) when no option is
    the empty string: [option[0].toLowerCase()] throws on an empty
    option. *)
Definition modalRenders (quiz : list MCQ) : bool :=
  forallb (fun q => forallb (fun o => negb (String.eqb o "")) (options q)) quiz.

Section OptionKey.
(** [option[0].toLowerCase()] on an option whose first character is not
    ASCII: some string, left unspecified. *)
Variable optionKey_other : string -> string.

(** Line 476.  [None]: the option is empty, [option[0]] is [undefined] and
    the render throws. *)
Definition optionKey (opt : string) : option string :=
  match opt with
  | EmptyString => None
  | String c _ =>
      if (nat_of_ascii c <? 128)%nat
      then Some (String (toLowerAscii c) EmptyString)
      else Some (optionKey_other opt)
  end.

(** Pressing the button of option [optIndex] of question [index]
    (line 484); nothing happens when there is no such button, in
    particular when the modal does not render. *)
Definition pressOption (quiz : list MCQ) (press : nat * nat)
    (selectedAnswers : gmap nat string) : gmap nat string :=
  if modalRenders quiz then
    match quiz !! press.1 with
    | Some q =>
        match options q !! press.2 with
        | Some o =>
            match optionKey o with
            | Some key => handleAnswerSelect press.1 key selectedAnswers
            | None => selectedAnswers
            end
        | None => selectedAnswers
        end
    | None => selectedAnswers
    end
  else selectedAnswers.

(** Start Quiz ([setSelectedAnswers({})], line 423) followed by presses. *)
Definition answersAfter (quiz : list MCQ) (presses : list (nat * nat))
    : gmap nat string :=
  foldl (fun answers press => pressOption quiz press answers) ∅ presses.
End OptionKey.

(** [generateDefaultQnA] (lines 225-248). *)
Definition generateDefaultQnA (topicName : string) : list MCQ :=
  [ {| question := "What is the main concept of " +:+ topicName +:+ "?";
       options := ["a) Option A"; "b) Option B"; "c) Option C"; "d) Option D"];
       correct := "a" |};
    {| question := "Why is " +:+ topicName +:+ " important?";
       options := ["a) Reason 1"; "b) Reason 2"; "c) Reason 3";
                   "d) All of the above"];
       correct := "d" |} ].

(** *** Marking a topic completed: [completeTopic] (lines 286-312) and
    [updateTopicTiming] (lines 250-284) *)

Definition isWhiteSpaceAscii (c : ascii) : bool :=
  let n := nat_of_ascii c in
  ((9 <=? n)%nat && (n <=? 13)%nat) || (n =? 32)%nat.

Fixpoint trimStartAscii (s : string) : string :=
  match s with
  | EmptyString => EmptyString
  | String c r => if isWhiteSpaceAscii c then trimStartAscii r else s
  end.

(** The value of a digit in radix 16 or less. *)
Definition digitValue (c : ascii) : option Z :=
  let n := Z.of_nat (nat_of_ascii c) in
  if (48 <=? n) && (n <=? 57) then Some (n - 48)
  else if (97 <=? n) && (n <=? 102) then Some (n - 87)
  else if (65 <=? n) && (n <=? 70) then Some (n - 55)
  else None.

Definition radixDigit (radix : Z) (c : ascii) : option Z :=
  match digitValue c with
  | Some d => if d <? radix then Some d else None
  | None => None
  end.

(** The integer of the longest prefix of digits; [acc] is [None] as long as
    no digit was read. *)
Fixpoint scanDigits (radix : Z) (acc : option Z) (s : string) : option Z :=
  match s with
  | EmptyString => acc
  | String c r =>
      match radixDigit radix c with
      | Some d => scanDigits radix (Some (radix * default 0 acc + d)) r
      | None => acc
      end
  end.

(** [Number.MAX_SAFE_INTEGER], 2^53 - 1: up to it every integer is a
    double, and the double of a run of digits is the integer itself. *)
Definition MAX_SAFE_INTEGER : Z := 9007199254740991.

Section ParseInt.
(** [parseInt] outside the fragment modelled here: unspecified.  These are
    - a string whose first character after the ASCII white space is not
      ASCII (it may be Unicode white space), and
    - a run of digits that denotes an integer above [MAX_SAFE_INTEGER]:
      the result is that integer rounded to a double ("9007199254740993"
      reads as 9007199254740992), and from about 1.8 * 10^308 on an
      infinity, which is no [jsnum]: the model does not describe the call
      on such a run. *)
Variable parseInt_other : string -> jsnum.

(** [parseInt(string)] without a radix: leading white space, a sign, the
    prefix "0x" or "0X" for radix 16, then the longest run of digits; the
    result is the number of that run as long as it is a safe integer. *)
Definition parseInt (text : string) : jsnum :=
  let trimmed := trimStartAscii text in
  match trimmed with
  | String c _ =>
      if (128 <=? nat_of_ascii c)%nat then parseInt_other text
      else
        let '(sign, rest) :=
          match trimmed with
          | String "-"%char r => (-1, r)
          | String "+"%char r => (1, r)
          | _ => (1, trimmed)
          end in
        let '(radix, digitsPart) :=
          match rest with
          | String "0"%char (String x r) =>
              if Ascii.eqb x "x" || Ascii.eqb x "X" then (16, r) else (10, rest)
          | _ => (10, rest)
          end in
        match scanDigits radix None digitsPart with
        | Some n =>
            if n <=? MAX_SAFE_INTEGER then Num (sign * n)
            else parseInt_other text
        | None => NaN
        end
  | EmptyString => NaN
  end.

(** The Submit handler of the prompt (lines 300-305): the minutes that it
    hands to [updateTopicTiming], if it calls it.  [time] is [None] when the
    prompt passes no text. *)
Definition submitTime (time : option string) : option Z :=
  let text := match time with
              | Some s => if String.eqb s "" then "0" else s
              | None => "0"
              end in
  match parseInt text with
  | Num actualTime => if 0 <? actualTime then Some actualTime else None
  | NaN => None
  end.
End ParseInt.

Definition doubleQuote : string := String (ascii_of_nat 34) EmptyString.

(** [completeTopic]: the title and the message of the prompt, [None] when
    no topic has the id (line 288). *)
Definition completeTopic (studyPlan : list Topic) (topicId : Z)
    : option (string * string) :=
  match list_find (fun t => topic_id t = topicId) studyPlan with
  | Some (_, found) =>
      Some ("Completion Time",
            "How many minutes did you spend on " +:+ doubleQuote
              +:+ topic found +:+ doubleQuote
              +:+ " (excluding Q&A time)?")
  | None => None
  end.

(** The outcome of [axios.post] in [updateTopicTiming]: success, or an
    error with the text of its message. *)
Inductive PostResult : Type :=
  | PostOk
  | PostError (message : string).

Section MarkCompleted.
Variable addMinutes_other : string -> Z -> string.
Variable parseInt_other : string -> jsnum.

(** [updateTopicTiming] on the plan and the log; [t1] and [t2] are the time
    stamps of its two log lines. *)
Definition updateTopicTimingAsync (t1 t2 : string) (post : PostResult)
    (state : list Topic * list string) (topicId actualTime : Z)
    : list Topic * list string :=
  let logs :=
    addLog t1 ("Updating timing for topic " +:+ pretty topicId
               +:+ " (actual time: " +:+ pretty actualTime +:+ " mins)")
      state.2 in
  match post with
  | PostOk =>
      (updateTopicTiming addMinutes_other state.1 topicId actualTime,
       addLog t2 ("Timing updated successfully for topic " +:+ pretty topicId)
         logs)
  | PostError message =>
      (state.1, addLog t2 ("Failed to update timing: " +:+ message) logs)
  end.

(** What the user does with the prompt. *)
Inductive PromptAnswer : Type :=
  | Cancel
  | Submit (time : option string).

(** Pressing Mark Completed on the card at position [index] (lines
    431-437), answering the prompt, and the request that follows; no other
    update of the plan arrives in between. *)
Definition markCompletedFlow (t1 t2 : string) (post : PostResult)
    (currentTopicIndex : Z) (index : nat) (answer : PromptAnswer)
    (state : list Topic * list string) : list Topic * list string :=
  match state.1 !! index with
  | Some card =>
      if showsCompleteButton currentTopicIndex index card then
        match completeTopic state.1 (topic_id card), answer with
        | Some _, Submit time =>
            match submitTime parseInt_other time with
            | Some actualTime =>
                updateTopicTimingAsync t1 t2 post state (topic_id card)
                  actualTime
            | None => state
            end
        | _, _ => state
        end
      else state
  | None => state
  end.
End MarkCompleted.

(** *** Selecting and processing the syllabus: [pickDocument] (lines
    83-117) and [processSyllabus] (lines 119-223)

    The two functions are modelled on the state they set: the selected
    syllabus, the loading flag, the error and the plan.  The outcomes of the
    awaited calls are inputs, and the exam date is taken to be a valid
    date.  The log lines, the alerts and the animation of the form are not
    part of this model. *)

Module Document.
Record t : Type := {
  uri : string;
  name : string;
  mimeType : field string;
  size : field Z;
}.
End Document.
Definition DocumentResult : Type := Document.t.

(** The plan in the state is whatever [setStudyPlan] stores; [P] is its
    type. *)
Record FormState (P : Type) : Type := {
  syllabus : option DocumentResult;
  loading : bool;
  error : field string;
  studyPlan : P;
}.
Arguments syllabus {P} _.
Arguments loading {P} _.
Arguments error {P} _.
Arguments studyPlan {P} _.

(** [DocumentPicker.getDocumentAsync]: it rejects, the user cancels, or it
    returns assets. *)
Inductive PickerOutcome : Type :=
  | PickerRejects
  | PickerCanceled
  | PickerAssets (assets : list DocumentResult).

(** [FileSystem.getInfoAsync]: it rejects with an error of the given
    message, or tells whether the file exists. *)
Inductive InfoOutcome : Type :=
  | InfoRejects (message : field string)
  | InfoExists (found : bool).

Definition pickDocument {P : Type} (picker : PickerOutcome)
    (info : InfoOutcome) (st : FormState P) : FormState P :=
  let failed :=
    {| syllabus := syllabus st;
       loading := loading st;
       error := Val "Failed to select PDF file";
       studyPlan := studyPlan st |} in
  match picker with
  | PickerRejects => failed
  | PickerCanceled => st
  | PickerAssets [] => failed
  | PickerAssets (file :: _) =>
      match info with
      | InfoExists true =>
          {| syllabus := Some {| Document.uri := Document.uri file;
                                 Document.name := Document.name file;
                                 Document.mimeType := Document.mimeType file;
                                 Document.size := Document.size file |};
             loading := loading st;
             error := Null;
             studyPlan := studyPlan st |}
      | _ => failed
      end
  end.

(** What is thrown inside the [try] of [processSyllabus]: an error that
    [axios.isAxiosError] recognises, with [error.response?.data?.error] and
    [error.message], or another error with its message. *)
Inductive Failure : Type :=
  | AxiosError (responseError message : field string)
  | OtherError (message : field string).

(** [response.data]: absent, or an object with its [schedule]. *)
Inductive ResponseData : Type :=
  | NoData
  | Data (schedule : field (list Item.t)).

Inductive PostOutcome : Type :=
  | PostFails (e : Failure)
  | PostResponds (data : ResponseData).

(** Lines 210-217. *)
Definition errorMessageOf (e : Failure) : field string :=
  match e with
  | AxiosError responseError message => str_or responseError message
  | OtherError message => str_or message (Val "Unknown error")
  end.

Section ProcessSyllabus.
Context {P : Type}.
(** What [setStudyPlan] makes of the normalised plan. *)
Variable store : list Transformed.t -> P.
(** The message of the [TypeError] that reading [schedule] of an absent
    [response.data] throws (line 155). *)
Variable typeErrorMessage : string.

(** The schedule that reaches the normaliser, or what is thrown before. *)
Definition fetchSchedule (info : InfoOutcome) (post : PostOutcome)
    : Failure + list Item.t :=
  match info with
  | InfoRejects message => inl (OtherError message)
  | InfoExists false => inl (OtherError (Val "File no longer exists"))
  | InfoExists true =>
      match post with
      | PostFails e => inl e
      | PostResponds NoData => inl (OtherError (Val typeErrorMessage))
      | PostResponds (Data (Val schedule)) => inr schedule
      | PostResponds (Data _) => inl (OtherError (Val "Invalid response format"))
      end
  end.

Definition processSyllabus (info : InfoOutcome) (post : PostOutcome)
    (st : FormState P) : FormState P :=
  match syllabus st with
  | None =>
      {| syllabus := syllabus st;
         loading := loading st;
         error := Val "No syllabus PDF selected";
         studyPlan := studyPlan st |}
  | Some _ =>
      match fetchSchedule info post with
      | inr schedule =>
          {| syllabus := syllabus st;
             loading := false;
             error := Null;
             studyPlan := store (transformedPlan schedule) |}
      | inl e =>
          {| syllabus := syllabus st;
             loading := false;
             error := errorMessageOf e;
             studyPlan := studyPlan st |}
      end
  end.
End ProcessSyllabus.

(** *** Vocabulary for the properties of these functions *)

(** The line that [addLog] appends. *)
Definition logLine (entry : string * string) : string :=
  "[" +:+ entry.1 +:+ "] " +:+ entry.2.

(** Successive calls of [addLog], each with its time stamp and message. *)
Definition logAll (entries : list (string * string)) (logs : list string)
    : list string :=
  foldl (fun logs entry => addLog entry.1 entry.2 logs) logs entries.

(** The string contains the marker ["**"]. *)
Fixpoint hasBold (s : string) : bool :=
  match s with
  | EmptyString => false
  | String c s1 =>
      match s1 with
      | String c' _ => (Ascii.eqb c "*" && Ascii.eqb c' "*") || hasBold s1
      | EmptyString => false
      end
  end.

(** [rest] can follow the decimal numeral of [z] without changing what
    [parseInt] reads: it is empty or starts with a character that is not a
    decimal digit, and not with "x" or "X" after the numeral 0. *)
Definition endsNumeral (z : Z) (rest : string) : Prop :=
  match rest with
  | EmptyString => True
  | String c _ =>
      radixDigit 10 c = None
      /\ (z = 0 -> Ascii.eqb c "x" = false /\ Ascii.eqb c "X" = false)
  end.

(** A topic that carries the given quiz. *)
Definition topicWithQuiz (quiz : list MCQ) : Topic :=
  {| topic_id := 1;
     topic := "Topic";
     start_time := "9:00 AM";
     end_time := "9:30 AM";
     allocated_time := Num 30;
     completed := false;
     summary := "Summary";
     qna := quiz;
     suggested_time := Some (Num 30);
     sessions := None |}.

(** A selected file. *)
Definition sampleDocument : DocumentResult :=
  {| Document.uri := "file:///cache/syllabus.pdf";
     Document.name := "syllabus.pdf";
     Document.mimeType := Val "application/pdf";
     Document.size := Val 1024 |}.

(** * Properties *)

(** ** The completion update *)

Section ReflowFacts.
Variable other : string -> Z -> string.

Lemma shiftLoop_spec (n i : nat) (saved : Z) (l : list Topic) :
  (i + n)%nat = length l ->
  shiftLoop other n i saved l
  = take i l ++ (shiftTopic other saved <$> drop i l).
Proof.
  revert i l. induction n as [|n IH]; intros i l Hlen; simpl.
  - rewrite drop_ge by lia. rewrite take_ge by lia. by rewrite app_nil_r.
  - destruct (lookup_lt_is_Some_2 l i) as [x Hx]; [lia|].
    rewrite IH by (rewrite length_alter; lia).
    rewrite (take_S_r (alter _ i l) i (shiftTopic other saved x)).
    2:{ by rewrite list_lookup_alter_eq, Hx. }
    rewrite take_alter_ge by lia.
    rewrite drop_alter_lt by lia.
    rewrite (drop_S l x i Hx). simpl.
    by rewrite <- app_assoc.
Qed.

(** The updater in closed form: the plan before the completed topic, the
    completed topic, and the (possibly shifted) rest. *)
Lemma updateTopicTiming_found (plan : list Topic) (topicId actualTime : Z)
    (k : nat) (t : Topic) :
  list_find (fun t => topic_id t = topicId) plan = Some (k, t) ->
  updateTopicTiming other plan topicId actualTime
  = take k plan ++ markCompleted actualTime t ::
      match js_sub (allocated_time t) (Num actualTime) with
      | Num saved =>
          if 0 <? saved then shiftTopic other saved <$> drop (S k) plan
          else drop (S k) plan
      | NaN => drop (S k) plan
      end.
Proof.
  intros Hfind. unfold updateTopicTiming. rewrite Hfind.
  apply list_find_Some in Hfind as (Hk & _ & _).
  pose proof (lookup_lt_Some _ _ _ Hk) as Hlt.
  assert (Hins : <[k:=markCompleted actualTime t]> plan
                 = take k plan ++ markCompleted actualTime t :: drop (S k) plan).
  { rewrite <- (take_drop_middle plan k t Hk) at 1.
    rewrite insert_app_r_alt by (rewrite length_take; lia).
    rewrite length_take, Nat.min_l by lia.
    by rewrite Nat.sub_diag. }
  destruct (js_sub _ _) as [|saved]; [exact Hins|].
  destruct (0 <? saved); [|exact Hins].
  rewrite shiftLoop_spec by (rewrite length_insert; lia).
  rewrite Hins.
  replace (k + 1)%nat with (length (take k plan) + 1)%nat
    by (rewrite length_take; lia).
  rewrite take_app_add', drop_app_add' by done.
  simpl. rewrite drop_0. by rewrite <- app_assoc.
Qed.

Lemma updateTopicTiming_not_found (plan : list Topic) (topicId actualTime : Z) :
  list_find (fun t => topic_id t = topicId) plan = None ->
  updateTopicTiming other plan topicId actualTime = plan.
Proof. intros Hfind. unfold updateTopicTiming. by rewrite Hfind. Qed.

(** A projection that neither the completion mark nor the shift changes
    has the same values, position by position, before and after. *)
Lemma updateTopicTiming_preserves {B : Type} (f : Topic -> B)
    (plan : list Topic) (topicId actualTime : Z) :
  (forall a t, f (markCompleted a t) = f t) ->
  (forall d t, f (shiftTopic other d t) = f t) ->
  f <$> updateTopicTiming other plan topicId actualTime = f <$> plan.
Proof.
  intros Hmark Hshift.
  destruct (list_find (fun t => topic_id t = topicId) plan) as [[k t]|] eqn:Hfind.
  - rewrite (updateTopicTiming_found _ _ _ _ _ Hfind).
    apply list_find_Some in Hfind as (Hk & _ & _).
    replace (f <$> plan) with (f <$> (take k plan ++ t :: drop (S k) plan))
      by (by rewrite take_drop_middle).
    rewrite !fmap_app, !fmap_cons, Hmark. do 2 f_equal.
    destruct (js_sub _ _) as [|saved]; [done|].
    destruct (0 <? saved); [|done].
    rewrite <- list_fmap_compose. apply list_fmap_ext.
    intros i x _. apply Hshift.
  - by rewrite updateTopicTiming_not_found.
Qed.

End ReflowFacts.

(** The update in terms of [addMinutes].  When the completed topic exists,
    [timeSaved] is its old [allocated_time] minus [actualTime].  If
    [timeSaved > 0], the [start_time] and the [end_time] of every topic
    after the completed one become [addMinutes] of their old value and
    [- timeSaved], each field on its own; if [timeSaved <= 0], every topic
    keeps its [start_time] and [end_time].  On three topics of 30 minutes
    starting 9:00, 9:30 and 10:00 AM, completing topic 1 in 20 minutes gives
    the starts 9:00, 9:20 and 9:50 AM, and completing it in 40 minutes
    changes no time.  Which time [addMinutes] returns is a matter of the
    clock arithmetic. *)
Lemma reflow_on_completion :
  (forall (other : string -> Z -> string) (plan : list Topic)
          (topicId actualTime : Z) (k : nat) (t : Topic),
      list_find (fun t => topic_id t = topicId) plan = Some (k, t) ->
      let timeSaved := js_sub (allocated_time t) (Num actualTime) in
      let plan' := updateTopicTiming other plan topicId actualTime in
      (js_gt timeSaved (Num 0) = true ->
       exists saved, timeSaved = Num saved /\
         forall (i : nat) (u : Topic), (k < i)%nat -> plan !! i = Some u ->
           exists u', plan' !! i = Some u'
             /\ start_time u' = addMinutes other (start_time u) (- saved)
             /\ end_time u' = addMinutes other (end_time u) (- saved))
      /\ (js_le timeSaved (Num 0) = true ->
          start_time <$> plan' = start_time <$> plan
          /\ end_time <$> plan' = end_time <$> plan))
  /\ (forall other : string -> Z -> string,
        start_time <$> updateTopicTiming other samplePlan 1 20
          = ["9:00 AM"; "9:20 AM"; "9:50 AM"]
        /\ end_time <$> updateTopicTiming other samplePlan 1 20
          = ["9:30 AM"; "9:50 AM"; "10:20 AM"])
  /\ (forall other : string -> Z -> string,
        start_time <$> updateTopicTiming other samplePlan 1 40
          = start_time <$> samplePlan
        /\ end_time <$> updateTopicTiming other samplePlan 1 40
          = end_time <$> samplePlan).
Proof.
  split; [|split; intros other; split; reflexivity].
  intros other plan topicId actualTime k t Hfind timeSaved plan'.
  subst plan'. rewrite (updateTopicTiming_found _ _ _ _ _ _ Hfind).
  fold timeSaved.
  pose proof Hfind as (Hk & _ & _)%list_find_Some.
  pose proof (lookup_lt_Some _ _ _ Hk) as Hlt.
  split.
  - destruct timeSaved as [|saved]; [discriminate|]. simpl. intros Hpos.
    exists saved. split; [done|]. intros i u Hi Hu.
    rewrite Hpos.
    exists (shiftTopic other saved u). split; [|done].
    rewrite lookup_app_r by (rewrite length_take; lia).
    rewrite length_take, Nat.min_l by lia.
    destruct (i - k)%nat as [|j] eqn:Hj; [lia|]. simpl.
    rewrite list_lookup_fmap, lookup_drop.
    replace (S k + j)%nat with i by lia. by rewrite Hu.
  - destruct timeSaved as [|saved]; [discriminate|]. simpl. intros Hle.
    replace (0 <? saved) with false by (symmetry; apply Z.ltb_ge; lia).
    replace (start_time <$> plan)
      with (start_time <$> (take k plan ++ t :: drop (S k) plan))
      by (by rewrite take_drop_middle).
    replace (end_time <$> plan)
      with (end_time <$> (take k plan ++ t :: drop (S k) plan))
      by (by rewrite take_drop_middle).
    by rewrite !fmap_app, !fmap_cons.
Qed.

(** C1 on a plan in the first hour of the day.  [nightPlan] has two topics
    of 30 minutes, 12:00 to 12:30 AM and 12:30 to 1:00 AM, all four valid
    clock strings.  Completing topic 1 in 20 minutes saves 10 minutes.  The
    end of topic 2 moves 10 minutes earlier, from 1:00 AM to 12:50 AM, but
    its start moves from 12:30 AM to 12:20 PM, 710 minutes later, and not to
    12:20 AM, the time 10 minutes earlier: [addMinutes] reads the hour 12
    of "12:30 AM" as 12 hours.  Topic 2 then starts after it ends. *)
Theorem reflow_misreads_12AM (other : string -> Z -> string) :
  let plan' := updateTopicTiming other nightPlan 1 20 in
  start_time <$> nightPlan = [clockString 12 0 false; clockString 12 30 false]
  /\ end_time <$> nightPlan = [clockString 12 30 false; clockString 1 0 false]
  /\ valid_clock 12 0 /\ valid_clock 12 30 /\ valid_clock 1 0
  /\ list_find (fun t => topic_id t = 1) nightPlan
     = Some (0%nat, sampleTopic 1 "12:00 AM" "12:30 AM" 30)
  /\ js_sub (Num 30) (Num 20) = Num 10
  /\ start_time <$> plan' = [clockString 12 0 false; clockString 12 20 true]
  /\ end_time <$> plan' = [clockString 12 30 false; clockString 12 50 false]
  /\ clockString 12 20 true = "12:20 PM"
  /\ clockString 12 20 true <> clockString 12 20 false
  /\ minutesSinceMidnight 12 20 false = minutesSinceMidnight 12 30 false - 10
  /\ minutesSinceMidnight 12 20 true = minutesSinceMidnight 12 30 false + 710
  /\ minutesSinceMidnight 12 50 false = minutesSinceMidnight 1 0 false - 10
  /\ minutesSinceMidnight 12 50 false < minutesSinceMidnight 12 20 true.
Proof.
  cbv zeta. unfold valid_clock.
  repeat match goal with |- _ /\ _ => split end;
    first [reflexivity | discriminate | lia].
Qed.

(** C7.  On the completed topic the update overwrites [allocated_time]
    with [actualTime] and sets [completed]; its [start_time], [end_time] and
    [sessions] (and every other property) keep their value, and every topic
    before it is unchanged. *)
Theorem completion_frame (other : string -> Z -> string) (plan : list Topic)
    (topicId actualTime : Z) (k : nat) (t : Topic) :
  list_find (fun t => topic_id t = topicId) plan = Some (k, t) ->
  let plan' := updateTopicTiming other plan topicId actualTime in
  (exists t', plan' !! k = Some t'
     /\ allocated_time t' = Num actualTime
     /\ completed t' = true
     /\ start_time t' = start_time t
     /\ end_time t' = end_time t
     /\ sessions t' = sessions t
     /\ topic_id t' = topic_id t
     /\ topic t' = topic t
     /\ summary t' = summary t
     /\ qna t' = qna t
     /\ suggested_time t' = suggested_time t)
  /\ (forall i : nat, (i < k)%nat -> plan' !! i = plan !! i).
Proof.
  intros Hfind plan'. subst plan'.
  rewrite (updateTopicTiming_found _ _ _ _ _ _ Hfind).
  pose proof Hfind as (Hk & _ & _)%list_find_Some.
  pose proof (lookup_lt_Some _ _ _ Hk) as Hlt.
  split.
  - exists (markCompleted actualTime t). split; [|by repeat split].
    rewrite lookup_app_r by (rewrite length_take; lia).
    rewrite length_take, Nat.min_l by lia.
    by rewrite Nat.sub_diag.
  - intros i Hi.
    rewrite lookup_app_l by (rewrite length_take; lia).
    by rewrite lookup_take_lt.
Qed.

Lemma completion_frame_witness :
  list_find (fun t => topic_id t = 2) samplePlan
    = Some (1%nat, sampleTopic 2 "9:30 AM" "10:00 AM" 30)
  /\ updateTopicTiming sampleOther samplePlan 2 20 !! 0%nat = samplePlan !! 0%nat.
Proof.
  split; [reflexivity|].
  apply (proj2 (completion_frame sampleOther samplePlan 2 20 1%nat
                  (sampleTopic 2 "9:30 AM" "10:00 AM" 30) eq_refl)).
  lia.
Defined.

(** C8.  When no topic of the plan has the given [topic_id], the update
    returns the plan as it is. *)
Theorem unknown_topic_noop (other : string -> Z -> string) (plan : list Topic)
    (topicId actualTime : Z) :
  (forall t, t ∈ plan -> topic_id t <> topicId) ->
  updateTopicTiming other plan topicId actualTime = plan.
Proof.
  intros Hnone. apply updateTopicTiming_not_found.
  apply list_find_None, Forall_forall. exact Hnone.
Qed.

Lemma unknown_topic_noop_witness :
  updateTopicTiming sampleOther samplePlan 7 20 = samplePlan.
Proof.
  apply unknown_topic_noop.
  intros t Ht. unfold samplePlan in Ht.
  repeat (apply elem_of_cons in Ht as [->|Ht]; [simpl; lia|]).
  by apply elem_of_nil in Ht.
Defined.

(** C10.  The update keeps the structure of the plan: the same number of
    topics, and at every position the same [topic_id], [topic], [summary]
    and [qna]. *)
Theorem completion_preserves_structure (other : string -> Z -> string)
    (plan : list Topic) (topicId actualTime : Z) :
  let plan' := updateTopicTiming other plan topicId actualTime in
  length plan' = length plan
  /\ topic_id <$> plan' = topic_id <$> plan
  /\ topic <$> plan' = topic <$> plan
  /\ summary <$> plan' = summary <$> plan
  /\ qna <$> plan' = qna <$> plan.
Proof.
  intros plan'. subst plan'.
  assert (Hid : topic_id <$> updateTopicTiming other plan topicId actualTime
                = topic_id <$> plan)
    by (by apply updateTopicTiming_preserves).
  split; [|repeat split; by apply updateTopicTiming_preserves].
  by rewrite <- (length_fmap topic_id), Hid, length_fmap.
Qed.

(** ** The normaliser *)

Lemma keep_qualifies (item : Item.t) : keep item = true <-> qualifies item.
Proof.
  unfold keep, qualifies, truthy_str, present_nonempty.
  destruct (Item.topic item) as [| |a], (Item.summary item) as [| |b]; simpl;
    rewrite ?andb_true_iff, ?negb_true_iff, ?String.eqb_neq;
    intuition discriminate.
Qed.

(** [Array.prototype.filter] with the condition of line 164 keeps, in
    input order, the records that qualify. *)
Lemma filter_keep (schedule : list Item.t) :
  List.filter keep schedule = filter qualifies schedule.
Proof.
  induction schedule as [|item schedule IH]; [done|]. simpl.
  rewrite filter_cons. rewrite IH.
  destruct (keep item) eqn:Hk, (decide (qualifies item)) as [Hq|Hq]; try done.
  - by apply keep_qualifies in Hk.
  - apply keep_qualifies in Hq. congruence.
Qed.

Lemma is_companion_spec (item q : Item.t) :
  is_companion item q = true <-> companion_of item q.
Proof.
  unfold is_companion, companion_of, strict_eq.
  by rewrite andb_true_iff, !bool_decide_eq_true.
Qed.

Lemma find_first_companion (schedule : list Item.t) (item : Item.t)
    (j : nat) (q : Item.t) :
  first_companion schedule item j q ->
  List.find (is_companion item) schedule = Some q.
Proof.
  revert j. induction schedule as [|x schedule IH]; intros j (Hj & Hq & Hfirst).
  - done.
  - simpl. destruct j as [|j]; simpl in Hj.
    + injection Hj as ->.
      apply is_companion_spec in Hq. by rewrite Hq.
    + destruct (is_companion item x) eqn:Hx.
      * apply is_companion_spec in Hx.
        by destruct (Hfirst 0%nat x ltac:(lia) eq_refl).
      * apply (IH j). split; [done|split; [done|]].
        intros j' q' Hlt Hq'. apply (Hfirst (S j') q'); [lia|done].
Qed.

Lemma find_no_companion (schedule : list Item.t) (item : Item.t) :
  no_companion schedule item ->
  List.find (is_companion item) schedule = None.
Proof.
  induction schedule as [|x schedule IH]; intros Hno; [done|]. simpl.
  destruct (is_companion item x) eqn:Hx.
  - apply is_companion_spec in Hx. destruct (Hno x); [left|done].
  - apply IH. intros q Hq. apply Hno. by right.
Qed.

(** Every kept record has a first companion or none at all. *)
Lemma companion_cases (schedule : list Item.t) (item : Item.t) :
  (exists j q, first_companion schedule item j q) \/ no_companion schedule item.
Proof.
  induction schedule as [|x schedule IH].
  - right. intros q Hq. by apply elem_of_nil in Hq.
  - destruct (decide (companion_of item x)) as [Hx|Hx].
    + left. exists 0%nat, x. split; [done|split; [done|]].
      intros j' q' Hlt. lia.
    + destruct IH as [(j & q & Hj & Hq & Hfirst)|Hno].
      * left. exists (S j), q. split; [done|split; [done|]].
        intros [|j'] q' Hlt Hq'; simpl in Hq'.
        -- by injection Hq' as <-.
        -- apply (Hfirst j' q'); [lia|done].
      * right. intros q [->|Hq]%elem_of_cons; [done|by apply Hno].
Qed.

Lemma transformedPlan_lookup (schedule : list Item.t) (i : nat) :
  transformedPlan schedule !! i
  = transformTopic schedule i <$> (filter qualifies schedule !! i).
Proof.
  unfold transformedPlan. by rewrite list_lookup_imap, filter_keep.
Qed.

(** C2.  The plan has one topic per record that qualifies (topic name and
    summary present and non-empty), in input order, and the [topic_id]s
    are 1, 2, ..., N, whatever the backend's [topic_id]s. *)
Theorem dense_renumbering (schedule : list Item.t) :
  let plan := transformedPlan schedule in
  let kept := filter qualifies schedule in
  length plan = length kept
  /\ Transformed.topic_id <$> plan = seqZ 1 (Z.of_nat (length kept))
  /\ Transformed.topic <$> plan = Item.topic <$> kept
  /\ Transformed.summary <$> plan = Item.summary <$> kept
  /\ (forall item, item ∈ kept <-> item ∈ schedule /\ qualifies item).
Proof.
  intros plan kept.
  assert (Hlen : length plan = length kept).
  { unfold plan, transformedPlan. by rewrite length_imap, filter_keep. }
  split; [done|]. split; [|split; [|split]].
  - apply list_eq. intros i.
    rewrite list_lookup_fmap. unfold plan.
    rewrite transformedPlan_lookup. fold kept.
    destruct (kept !! i) as [item|] eqn:Hi; simpl.
    + apply lookup_lt_Some in Hi.
      rewrite lookup_seqZ_lt by lia. f_equal. lia.
    + apply lookup_ge_None in Hi.
      by rewrite lookup_seqZ_ge by lia.
  - apply list_eq. intros i.
    rewrite !list_lookup_fmap. unfold plan.
    rewrite transformedPlan_lookup. fold kept.
    by destruct (kept !! i).
  - apply list_eq. intros i.
    rewrite !list_lookup_fmap. unfold plan.
    rewrite transformedPlan_lookup. fold kept.
    by destruct (kept !! i).
  - intros item. unfold kept. by rewrite list_elem_of_filter, (comm and).
Qed.

(** C3, as stated, fails: the Q&A record of [scheduleNoEnd] is the
    companion of the study record, it has no [end_time], and the topic ends
    at the study record's own [end_time]. *)
Lemma companion_end_time_counterexample :
  filter qualifies scheduleNoEnd !! 0%nat
    = Some (studyItem (Val 1) (Val 30) (Val "9:30 AM"))
  /\ first_companion scheduleNoEnd (studyItem (Val 1) (Val 30) (Val "9:30 AM"))
       1 (qnaItem (Val 1) Undefined (Val 10))
  /\ exists tp, transformedPlan scheduleNoEnd !! 0%nat = Some tp
       /\ Transformed.end_time tp = Val "9:30 AM"
       /\ Transformed.end_time tp
          <> Item.end_time (qnaItem (Val 1) Undefined (Val 10)).
Proof.
  split; [reflexivity|]. split.
  - split; [reflexivity|]. split; [by split|].
    intros [|j'] q' Hlt Hq'; [|lia].
    injection Hq' as <-. intros [_ Htype]. discriminate.
  - eexists. split; [reflexivity|]. by split.
Qed.

(** C3, amended.  For a kept study record and its topic: when [q] is the
    first record in input order with the same backend [topic_id] and type
    ["qna"], [sessions] has length 2, [sessions[1].duration] is the duration
    of [q], and [end_time] is the [end_time] of [q] when that is a non-empty
    string and the study record's own [end_time] otherwise; when there is
    no such record, [sessions] has length 1 and [allocated_time] is the
    study record's [allocated_time] as a number (that integer when it is
    one). *)
Theorem companion_pairing (schedule : list Item.t) (i : nat) (item : Item.t) :
  filter qualifies schedule !! i = Some item ->
  exists tp, transformedPlan schedule !! i = Some tp
    /\ (forall (j : nat) (q : Item.t), first_companion schedule item j q ->
          length (Transformed.sessions tp) = 2%nat
          /\ Transformed.duration <$> (Transformed.sessions tp !! 1%nat)
             = Some (Item.duration q)
          /\ Transformed.end_time tp
             = if truthy_str (Item.end_time q) then Item.end_time q
               else Item.end_time item)
    /\ (no_companion schedule item ->
          length (Transformed.sessions tp) = 1%nat
          /\ Transformed.allocated_time tp = ToNumber (Item.allocated_time item)
          /\ forall n, Item.allocated_time item = Val n ->
               Transformed.allocated_time tp = Num n).
Proof.
  intros Hi. exists (transformTopic schedule i item).
  split; [by rewrite transformedPlan_lookup, Hi|].
  unfold transformTopic; simpl. split.
  - intros j q Hq. rewrite (find_first_companion _ _ _ _ Hq). simpl.
    by repeat split.
  - intros Hno. rewrite (find_no_companion _ _ Hno). simpl.
    assert (Hnum : js_add (ToNumber (Item.allocated_time item)) (Num 0)
                   = ToNumber (Item.allocated_time item)).
    { destruct (Item.allocated_time item); simpl; f_equal; lia. }
    rewrite Hnum. repeat split. by intros n ->.
Qed.

Lemma companion_pairing_witness :
  filter qualifies scheduleNoEnd !! 0%nat
    = Some (studyItem (Val 1) (Val 30) (Val "9:30 AM"))
  /\ exists tp, transformedPlan scheduleNoEnd !! 0%nat = Some tp
       /\ (forall (j : nat) (q : Item.t),
             first_companion scheduleNoEnd
               (studyItem (Val 1) (Val 30) (Val "9:30 AM")) j q ->
             length (Transformed.sessions tp) = 2%nat
             /\ Transformed.duration <$> (Transformed.sessions tp !! 1%nat)
                = Some (Item.duration q)
             /\ Transformed.end_time tp
                = if truthy_str (Item.end_time q) then Item.end_time q
                  else Val "9:30 AM").
Proof.
  split; [reflexivity|].
  destruct (companion_pairing scheduleNoEnd 0
              (studyItem (Val 1) (Val 30) (Val "9:30 AM")) eq_refl)
    as (tp & Htp & Hpair & _).
  exists tp. split; [exact Htp|exact Hpair].
Defined.

(** C4 where [allocated_time] is absent.  For every kept study record
    without [allocated_time], [sessions[0].duration] and [suggested_time]
    are the default 30, but the topic's [allocated_time] is [NaN], the
    value of [undefined + n]: the study duration does not contribute 0.
    Without a companion ([scheduleNoAllocation]) the result is not 0, and
    with a companion of 10 minutes ([scheduleNoAllocationQna]) it is not 10;
    it is no integer at all. *)
Theorem missing_allocation_is_NaN :
  (forall (schedule : list Item.t) (i : nat) (item : Item.t),
     filter qualifies schedule !! i = Some item ->
     Item.allocated_time item = Undefined ->
     exists tp, transformedPlan schedule !! i = Some tp
       /\ Transformed.duration <$> (Transformed.sessions tp !! 0%nat)
          = Some (Val 30)
       /\ Transformed.suggested_time tp = 30
       /\ Transformed.allocated_time tp = NaN
       /\ forall z, Transformed.allocated_time tp <> Num z)
  /\ (filter qualifies scheduleNoAllocation
      = [studyItem (Val 1) Undefined (Val "9:30 AM")]
      /\ no_companion scheduleNoAllocation
           (studyItem (Val 1) Undefined (Val "9:30 AM"))
      /\ exists tp, transformedPlan scheduleNoAllocation = [tp]
           /\ Transformed.duration <$> Transformed.sessions tp = [Val 30]
           /\ Transformed.allocated_time tp = NaN
           /\ Transformed.allocated_time tp <> Num 0)
  /\ (filter qualifies scheduleNoAllocationQna
      = [studyItem (Val 1) Undefined (Val "9:30 AM")]
      /\ first_companion scheduleNoAllocationQna
           (studyItem (Val 1) Undefined (Val "9:30 AM"))
           1%nat (qnaItem (Val 1) (Val "9:40 AM") (Val 10))
      /\ exists tp, transformedPlan scheduleNoAllocationQna = [tp]
           /\ Transformed.duration <$> Transformed.sessions tp
              = [Val 30; Val 10]
           /\ Transformed.allocated_time tp = NaN
           /\ Transformed.allocated_time tp <> Num 10).
Proof.
  split; [|split].
  - intros schedule i item Hi Halloc.
    exists (transformTopic schedule i item).
    split; [by rewrite transformedPlan_lookup, Hi|].
    unfold transformTopic; simpl. rewrite Halloc. simpl.
    by repeat split.
  - split; [reflexivity|]. split.
    + intros q Hq. apply list_elem_of_singleton in Hq as ->.
      intros [_ Htype]. discriminate.
    + eexists. split; [reflexivity|]. by repeat split.
  - split; [reflexivity|]. split.
    + split; [reflexivity|]. split; [by split|].
      intros j' q' Hj' Hq' [_ Htype].
      destruct j' as [|j']; [|lia].
      injection Hq' as <-. discriminate.
    + eexists. split; [reflexivity|]. by repeat split.
Qed.

Lemma missing_allocation_is_NaN_witness :
  filter qualifies scheduleNoAllocationQna !! 0%nat
    = Some (studyItem (Val 1) Undefined (Val "9:30 AM"))
  /\ exists tp, transformedPlan scheduleNoAllocationQna !! 0%nat = Some tp
       /\ Transformed.suggested_time tp = 30
       /\ Transformed.allocated_time tp = NaN.
Proof.
  split; [reflexivity|].
  destruct (proj1 missing_allocation_is_NaN scheduleNoAllocationQna 0%nat
              (studyItem (Val 1) Undefined (Val "9:30 AM")) eq_refl eq_refl)
    as (tp & Htp & _ & Hsuggested & Hnan & _).
  exists tp. split; [exact Htp|]. split; [exact Hsuggested|exact Hnan].
Defined.

(** Where [allocated_time] is [null] or 0 the study duration does
    contribute 0: [sessions[0].duration] and [suggested_time] are 30, and
    the topic's
    [allocated_time] is the duration of the first companion if that is a
    non-zero number, and 0 otherwise or without a companion. *)
Lemma null_or_zero_allocation (schedule : list Item.t) (i : nat)
    (item : Item.t) :
  filter qualifies schedule !! i = Some item ->
  Item.allocated_time item = Null \/ Item.allocated_time item = Val 0 ->
  exists tp, transformedPlan schedule !! i = Some tp
    /\ Transformed.duration <$> (Transformed.sessions tp !! 0%nat)
       = Some (Val 30)
    /\ Transformed.suggested_time tp = 30
    /\ (forall (j : nat) (q : Item.t), first_companion schedule item j q ->
          Transformed.allocated_time tp = Num (num_or (Item.duration q) 0))
    /\ (no_companion schedule item ->
          Transformed.allocated_time tp = Num 0).
Proof.
  intros Hi Hzero. exists (transformTopic schedule i item).
  split; [by rewrite transformedPlan_lookup, Hi|].
  unfold transformTopic; simpl.
  assert (Hdef : num_or (Item.allocated_time item) 30 = 30)
    by (by destruct Hzero as [-> | ->]).
  rewrite Hdef. split; [done|]. split; [done|]. split.
  - intros j q Hq. rewrite (find_first_companion _ _ _ _ Hq). simpl.
    by destruct Hzero as [-> | ->].
  - intros Hno. rewrite (find_no_companion _ _ Hno). simpl.
    by destruct Hzero as [-> | ->].
Qed.

(** C5 at two inputs.  With [allocated_time] 0 and a Q&A record of 10
    minutes the breakdown is 30 and 10 (sum 40) while [allocated_time] is
    10; with [allocated_time] absent and no Q&A record the breakdown is 30
    while [allocated_time] is [NaN]. *)
Theorem sessions_sum_differs :
  (exists tp, transformedPlan scheduleZeroAllocation = [tp]
     /\ Transformed.duration <$> Transformed.sessions tp = [Val 30; Val 10]
     /\ sessionsTotal (Transformed.sessions tp) = Num 40
     /\ Transformed.allocated_time tp = Num 10)
  /\ (exists tp, transformedPlan scheduleNoAllocation = [tp]
        /\ Transformed.duration <$> Transformed.sessions tp = [Val 30]
        /\ sessionsTotal (Transformed.sessions tp) = Num 30
        /\ Transformed.allocated_time tp = NaN).
Proof. split; eexists; (split; [reflexivity|]); by repeat split. Qed.

(** The breakdown does add up to [allocated_time] when the study record's
    [allocated_time] is a non-zero integer and no record of the schedule
    lacks its duration. *)
Lemma sessions_sum_truthy (schedule : list Item.t) (i : nat) (item : Item.t)
    (n : Z) :
  filter qualifies schedule !! i = Some item ->
  Item.allocated_time item = Val n -> n <> 0 ->
  (forall q, q ∈ schedule -> Item.duration q <> Undefined) ->
  exists tp, transformedPlan schedule !! i = Some tp
    /\ sessionsTotal (Transformed.sessions tp) = Transformed.allocated_time tp.
Proof.
  intros Hi Halloc Hn Hdur. exists (transformTopic schedule i item).
  split; [by rewrite transformedPlan_lookup, Hi|].
  unfold transformTopic, sessionsTotal; simpl. rewrite Halloc; simpl.
  replace (n =? 0) with false by (symmetry; by apply Z.eqb_neq).
  destruct (List.find (is_companion item) schedule) as [q|] eqn:Hfind; simpl.
  - apply find_some in Hfind as [Hin _].
    apply list_elem_of_In, Hdur in Hin.
    destruct (Item.duration q) as [| |d]; simpl; [done|f_equal; lia|].
    destruct (d =? 0) eqn:Hd; f_equal; [apply Z.eqb_eq in Hd|]; lia.
  - f_equal; lia.
Qed.

(** ** Quiz scoring *)

Lemma evaluateFrom_spec (answers : gmap nat string) (qs : list MCQ)
    (index : nat) (score : Z) :
  evaluateFrom answers index score qs
  = (score + Z.of_nat (length (filter
               (fun iq => answers !! iq.1 = Some (correct iq.2))
               (imap (fun i q => ((index + i)%nat, q)) qs))),
     imap (fun i q => resultAt answers (index + i) q) qs).
Proof.
  revert index score. induction qs as [|q qs IH]; intros index score.
  - simpl. f_equal. lia.
  - cbn [evaluateFrom]. rewrite IH. rewrite !imap_cons.
    rewrite filter_cons. cbn [fst snd]. rewrite Nat.add_0_r.
    rewrite (imap_ext (fun i q0 => ((S index + i)%nat, q0))
               ((fun i q0 => ((index + i)%nat, q0)) ∘ S))
      by (intros; simpl; f_equal; lia).
    rewrite (imap_ext (fun i q0 => resultAt answers (S index + i) q0)
               ((fun i q0 => resultAt answers (index + i) q0) ∘ S))
      by (intros; simpl; f_equal; lia).
    destruct (decide (answers !! index = Some (correct q))) as [Hc|Hc].
    + rewrite bool_decide_eq_true_2 by done.
      simpl. f_equal; [lia|].
      f_equal. unfold resultAt. by rewrite bool_decide_eq_true_2.
    + rewrite bool_decide_eq_false_2 by done. f_equal.
      f_equal. unfold resultAt. by rewrite bool_decide_eq_false_2.
Qed.

Lemma evaluateFrom_start (answers : gmap nat string) (qs : list MCQ) :
  evaluateFrom answers 0 0 qs
  = (Z.of_nat (length (correctlyAnswered qs answers)),
     imap (resultAt answers) qs).
Proof.
  rewrite evaluateFrom_spec. unfold correctlyAnswered.
  rewrite (imap_ext (fun i q => ((0 + i)%nat, q)) pair) by done.
  rewrite (imap_ext (fun i q => resultAt answers (0 + i) q) (resultAt answers))
    by done.
  f_equal.
Qed.

Lemma filter_length_lt {A : Type} (P : A -> Prop) `{!forall x, Decision (P x)}
    (l : list A) (x : A) :
  x ∈ l -> ~ P x -> (length (filter P l) < length l)%nat.
Proof.
  induction l as [|y l IH]; intros Hin Hx.
  - by apply elem_of_nil in Hin.
  - rewrite filter_cons. pose proof (length_filter P l) as Hle.
    apply elem_of_cons in Hin as [<-|Hin].
    + rewrite decide_False by done. simpl. lia.
    + specialize (IH Hin Hx). destruct (decide (P y)); simpl; lia.
Qed.

(** C9.  The score is the number of positions [i] whose answer equals the
    correct key of question [i]; there is one result per question; a
    question without an answer is marked [isCorrect = false], nothing
    fails, and the score is then at most Q - 1. *)
Theorem evaluate_score (t : Topic) (answers : gmap nat string) :
  exists (score : Z) (results : list Result),
    evaluateAnswers (Some t) answers = Some (score, results)
    /\ score = Z.of_nat (length (correctlyAnswered (qna t) answers))
    /\ length results = length (qna t)
    /\ (forall (i : nat) (q : MCQ), qna t !! i = Some q ->
          exists r, results !! i = Some r
            /\ selected r = answers !! i
            /\ (isCorrect r = true <-> answers !! i = Some (correct q)))
    /\ (forall i : nat, (i < length (qna t))%nat -> answers !! i = None ->
          isCorrect <$> results !! i = Some false
          /\ score <= Z.of_nat (length (qna t)) - 1).
Proof.
  unfold evaluateAnswers. rewrite evaluateFrom_start.
  eexists _, _. split; [reflexivity|].
  split; [done|].
  split; [by rewrite length_imap|]. split.
  - intros i q Hq. exists (resultAt answers i q).
    split; [by rewrite list_lookup_imap, Hq|].
    split; [done|]. simpl. by rewrite bool_decide_eq_true.
  - intros i Hi Hnone.
    destruct (lookup_lt_is_Some_2 (qna t) i Hi) as [q Hq].
    split.
    + rewrite list_lookup_imap, Hq. simpl.
      by rewrite bool_decide_eq_false_2 by (rewrite Hnone; discriminate).
    + assert (Hlt : (length (correctlyAnswered (qna t) answers)
                     < length (imap pair (qna t)))%nat).
      { apply (filter_length_lt _ _ (i, q)).
        - apply list_elem_of_lookup. exists i.
          by rewrite list_lookup_imap, Hq.
        - simpl. rewrite Hnone. discriminate. }
      rewrite length_imap in Hlt. lia.
Qed.

Lemma evaluate_score_witness :
  (1 < length (qna sampleQuizTopic))%nat
  /\ sampleAnswers !! 1%nat = None
  /\ exists (score : Z) (results : list Result),
       evaluateAnswers (Some sampleQuizTopic) sampleAnswers
         = Some (score, results)
       /\ isCorrect <$> results !! 1%nat = Some false
       /\ score <= Z.of_nat (length (qna sampleQuizTopic)) - 1.
Proof.
  split; [simpl; lia|]. split; [reflexivity|].
  destruct (evaluate_score sampleQuizTopic sampleAnswers)
    as (score & results & Heval & _ & _ & _ & Hmissing).
  exists score, results. split; [exact Heval|].
  apply Hmissing; [simpl; lia|reflexivity].
Defined.

(** ** Clock arithmetic *)

(** [formatTime] writes a clock string. *)
Lemma formatTime_clockString (total : Z) :
  formatTime total
  = clockString (if Z.rem (total / 60) 12 =? 0 then 12 else Z.rem (total / 60) 12)
      (Z.rem total 60) (720 <=? total).
Proof. unfold formatTime, clockString, periodName. reflexivity. Qed.

(** A valid clock string is split and read back as its hour, minute and
    period: checked on the 1440 strings. *)
Lemma parseTime_clockString (h m : Z) (pm : bool) :
  valid_clock h m ->
  parseTime (clockString h m pm) = Some (h, m, Some (periodName pm)).
Proof.
  intros [Hh Hm].
  assert (Hall : forallb (fun h => forallb (fun m => forallb (fun pm =>
            bool_decide (parseTime (clockString h m pm)
                         = Some (h, m, Some (periodName pm))))
            [true; false]) (seqZ 0 60)) (seqZ 1 12) = true)
    by (vm_compute; reflexivity).
  rewrite forallb_forall in Hall.
  specialize (Hall h). rewrite forallb_forall in Hall.
  specialize (Hall ltac:(apply list_elem_of_In, elem_of_seqZ; lia) m).
  rewrite forallb_forall in Hall.
  specialize (Hall ltac:(apply list_elem_of_In, elem_of_seqZ; lia) pm).
  eapply bool_decide_eq_true_1, Hall. destruct pm; simpl; tauto.
Qed.

Section ClockFacts.
Variable other : string -> Z -> string.

Lemma addMinutes_clockString (h m : Z) (pm : bool) (d : Z) :
  valid_clock h m ->
  addMinutes other (clockString h m pm) d
  = formatTime (totalOf h m (Some (periodName pm)) d).
Proof.
  intros Hv. unfold addMinutes. by rewrite parseTime_clockString.
Qed.

Lemma totalOf_periodName (h m : Z) (pm : bool) (d : Z) :
  totalOf h m (Some (periodName pm)) d
  = h * 60 + m + d + (if pm && negb (h =? 12) then 720 else 0).
Proof.
  unfold totalOf.
  replace (bool_decide (Some (periodName pm) = Some "PM")) with pm
    by (by destruct pm).
  destruct (pm && negb (h =? 12)); lia.
Qed.

(** The total that line 317-318 computes for a valid clock string: the
    minutes since midnight, except that the hour 12 of "12:MM AM" counts
    as 12 hours. *)
Lemma totalOf_clock (h m : Z) (pm : bool) (d : Z) :
  valid_clock h m ->
  totalOf h m (Some (periodName pm)) d
  = (if (h =? 12) && negb pm then 720 else 0)
    + minutesSinceMidnight h m pm + d.
Proof.
  intros [Hh Hm]. rewrite totalOf_periodName. unfold minutesSinceMidnight.
  destruct (h =? 12) eqn:H12.
  - apply Z.eqb_eq in H12 as ->. change (12 mod 12) with 0.
    destruct pm; simpl; lia.
  - apply Z.eqb_neq in H12.
    rewrite Z.mod_small by lia.
    destruct pm; simpl; lia.
Qed.

(** Formatting a total of the day from 1:00 AM on and reading it back
    gives the total. *)
Lemma totalOf_formatTime (total d : Z) :
  60 <= total < 1440 ->
  exists h m pm, valid_clock h m
    /\ formatTime total = clockString h m pm
    /\ totalOf h m (Some (periodName pm)) d = total + d.
Proof.
  intros Hrange. rewrite formatTime_clockString.
  eexists _, _, _. split; [|split; [reflexivity|]].
  - unfold valid_clock.
    destruct (Z.eqb_spec (Z.rem (total / 60) 12) 0) as [Hz|Hz];
      Z.to_euclidean_division_equations; lia.
  - rewrite totalOf_periodName.
    destruct (Z.leb_spec 720 total) as [Hpm|Hpm];
      destruct (Z.eqb_spec (Z.rem (total / 60) 12) 0) as [Hz|Hz]; simpl.
    + Z.to_euclidean_division_equations; lia.
    + destruct (Z.eqb_spec (Z.rem (total / 60) 12) 12) as [Hz'|Hz']; simpl;
        Z.to_euclidean_division_equations; lia.
    + Z.to_euclidean_division_equations; lia.
    + Z.to_euclidean_division_equations; lia.
Qed.

(** Formatting the total of a valid clock string other than "12:MM AM"
    gives the string back. *)
Lemma formatTime_totalOf (h m : Z) (pm : bool) :
  valid_clock h m -> (h = 12 -> pm = true) ->
  formatTime (totalOf h m (Some (periodName pm)) 0) = clockString h m pm.
Proof.
  intros [Hh Hm] H12. rewrite formatTime_clockString.
  rewrite totalOf_periodName.
  set (total := h * 60 + m + 0 + (if pm && negb (h =? 12) then 720 else 0)).
  assert (Htotal : total = (if h =? 12 then 0 else h) * 60 + m
                           + (if pm then 720 else 0)).
  { subst total. destruct pm, (Z.eqb_spec h 12) as [Heq|Hne]; simpl; lia. }
  assert (Hhour : (if Z.rem (total / 60) 12 =? 0 then 12
                   else Z.rem (total / 60) 12) = h).
  { destruct (Z.eqb_spec (Z.rem (total / 60) 12) 0) as [Hz|Hz];
      destruct pm, (Z.eqb_spec h 12) as [Heq|Hne];
      Z.to_euclidean_division_equations; lia. }
  assert (Hmin : Z.rem total 60 = m).
  { destruct pm, (Z.eqb_spec h 12) as [Heq|Hne];
      Z.to_euclidean_division_equations; lia. }
  assert (Hpm : (720 <=? total) = pm).
  { destruct (Z.leb_spec 720 total) as [Hle|Hgt];
      destruct pm, (Z.eqb_spec h 12) as [Heq|Hne]; try done; lia. }
  by rewrite Hhour, Hmin, Hpm.
Qed.

(** The round trip holds for every valid clock string other than
    "12:MM AM" and every [d] that keeps the shifted time from 1:00 AM to
    11:59 PM of the same day. *)
Lemma addMinutes_roundtrip (h m : Z) (pm : bool) (d : Z) :
  valid_clock h m -> (h = 12 -> pm = true) ->
  60 <= minutesSinceMidnight h m pm + d < 1440 ->
  addMinutes other (addMinutes other (clockString h m pm) d) (- d)
  = clockString h m pm.
Proof.
  intros Hv H12 Hrange.
  rewrite addMinutes_clockString by done.
  assert (Htot : totalOf h m (Some (periodName pm)) d
                 = minutesSinceMidnight h m pm + d).
  { rewrite totalOf_clock by done.
    destruct (h =? 12) eqn:Hh; [apply Z.eqb_eq in Hh|]; simpl; [|lia].
    rewrite (H12 Hh). simpl. lia. }
  rewrite Htot.
  destruct (totalOf_formatTime _ (- d) Hrange) as (h' & m' & pm' & Hv' & -> & Hback).
  rewrite addMinutes_clockString by done.
  rewrite Hback.
  replace (minutesSinceMidnight h m pm + d + - d)
    with (totalOf h m (Some (periodName pm)) 0).
  - by apply formatTime_totalOf.
  - rewrite totalOf_clock by done.
    destruct (h =? 12) eqn:Hh; [apply Z.eqb_eq in Hh|]; simpl; [|lia].
    rewrite (H12 Hh). simpl. lia.
Qed.

End ClockFacts.

(** C6 at "12:30 AM".  It is a valid clock string; [addMinutes] reads its
    hour 12 as 12 hours, so the total is 750 and not 30, and adding 0
    minutes already gives "12:30 PM": the round trip with [d = 0] ends at
    "12:30 PM".  The strings that [addMinutes] itself writes for the first
    hour of the day are read back the same way: from "1:00 AM", 30 minutes
    back and 30 minutes forth end at "1:00 PM". *)
Theorem roundtrip_fails_at_12AM (other : string -> Z -> string) :
  valid_clock 12 30
  /\ clockString 12 30 false = "12:30 AM"
  /\ minutesSinceMidnight 12 30 false = 30
  /\ parseTime "12:30 AM" = Some (12, 30, Some "AM")
  /\ totalOf 12 30 (Some "AM") 0 = 750
  /\ addMinutes other "12:30 AM" 0 = "12:30 PM"
  /\ addMinutes other (addMinutes other "12:30 AM" 0) (- 0) = "12:30 PM"
  /\ addMinutes other "1:00 AM" (- 30) = "12:30 AM"
  /\ addMinutes other (addMinutes other "1:00 AM" (- 30)) (- - 30) = "1:00 PM".
Proof. unfold valid_clock. repeat split; try lia; reflexivity. Qed.

(** ** The update on references *)

Section RefFacts.
Variable other : string -> Z -> string.

Lemma readPlan_lookup (objs : gmap nat Topic) (plan : list nat)
    (topics : list Topic) (j : nat) :
  readPlan objs plan = Some <$> topics ->
  match plan !! j with
  | Some r => exists t, topics !! j = Some t /\ objs !! r = Some t
  | None => topics !! j = None
  end.
Proof.
  intros Hread.
  assert (Hj : readPlan objs plan !! j = (Some <$> topics) !! j)
    by (by rewrite Hread).
  unfold readPlan in Hj. rewrite !list_lookup_fmap in Hj.
  destruct (plan !! j) as [r|], (topics !! j) as [t|]; simpl in Hj;
    try discriminate; [|done].
  exists t. split; [done|]. by injection Hj.
Qed.

(** [findIndex] on the references finds the position that it finds on the
    topics they show. *)
Lemma list_find_ref (objs : gmap nat Topic) (plan : list nat)
    (topics : list Topic) (topicId : Z) :
  readPlan objs plan = Some <$> topics ->
  match list_find (fun t => topic_id t = topicId) topics with
  | Some (k, t) =>
      exists r, list_find (fun r => topic_id <$> objs !! r = Some topicId) plan
                = Some (k, r)
                /\ objs !! r = Some t
  | None =>
      list_find (fun r => topic_id <$> objs !! r = Some topicId) plan = None
  end.
Proof.
  revert topics. induction plan as [|r plan IH]; intros [|t topics] Hread;
    try discriminate; [done|].
  injection Hread as Hr Hread. specialize (IH topics Hread).
  cbn [list_find]. rewrite Hr. simpl.
  destruct (decide (topic_id t = topicId)) as [Ht|Ht].
  - rewrite decide_True by (by rewrite Ht). by exists r.
  - rewrite decide_False by (intros [=]; done).
    destruct (list_find (fun t => topic_id t = topicId) topics) as [[k t']|].
    + destruct IH as (r' & -> & Hr'). by exists r'.
    + by rewrite IH.
Qed.

(** After the loop, the objects of the references from position [i] on are
    shifted once, provided no reference occurs twice; all others are as
    before. *)
Lemma shiftLoopRef_lookup (n i : nat) (saved : Z) (plan : list nat)
    (objs : gmap nat Topic) (r : nat) :
  NoDup plan -> (i + n)%nat = length plan ->
  shiftLoopRef other n i saved plan objs !! r
  = if decide (r ∈ drop i plan) then shiftTopic other saved <$> objs !! r
    else objs !! r.
Proof.
  intros Hnodup. revert i objs.
  induction n as [|n IH]; intros i objs Hlen; simpl.
  - rewrite drop_ge by lia. rewrite decide_False; [done|].
    by intros ?%elem_of_nil.
  - destruct (lookup_lt_is_Some_2 plan i) as [ri Hri]; [lia|].
    rewrite Hri, IH by lia.
    rewrite (drop_S plan ri i Hri).
    assert (Hfresh : ri ∉ drop (S i) plan).
    { intros (j & Hj)%list_elem_of_lookup. rewrite lookup_drop in Hj.
      pose proof (NoDup_lookup _ _ _ _ Hnodup Hri Hj). lia. }
    destruct (decide (r = ri)) as [->|Hne].
    + rewrite decide_False by done.
      rewrite decide_True by left. apply lookup_alter_eq.
    + rewrite lookup_alter_ne by done.
      destruct (decide (r ∈ drop (S i) plan)) as [Hin|Hin].
      * rewrite decide_True; [done|]. by right.
      * rewrite decide_False; [done|].
        by intros [?|?]%elem_of_cons.
Qed.

Lemma updateTopicTiming_lookup (topics : list Topic) (topicId actualTime : Z)
    (k : nat) (t : Topic) (j : nat) :
  list_find (fun t => topic_id t = topicId) topics = Some (k, t) ->
  updateTopicTiming other topics topicId actualTime !! j
  = if decide (j < k)%nat then topics !! j
    else if decide (j = k) then Some (markCompleted actualTime t)
    else match js_sub (allocated_time t) (Num actualTime) with
         | Num saved =>
             if 0 <? saved then shiftTopic other saved <$> topics !! j
             else topics !! j
         | NaN => topics !! j
         end.
Proof.
  intros Hfind. rewrite (updateTopicTiming_found _ _ _ _ _ _ Hfind).
  apply list_find_Some in Hfind as (Hk & _ & _).
  pose proof (lookup_lt_Some _ _ _ Hk) as Hlt.
  destruct (decide (j < k)%nat) as [Hjk|Hjk].
  - rewrite lookup_app_l by (rewrite length_take; lia).
    by rewrite lookup_take_lt.
  - rewrite lookup_app_r by (rewrite length_take; lia).
    rewrite length_take, Nat.min_l by lia.
    destruct (decide (j = k)) as [->|Hne].
    + by rewrite Nat.sub_diag.
    + destruct (j - k)%nat as [|d] eqn:Hd; [lia|]. simpl.
      replace j with (S k + d)%nat by lia.
      destruct (js_sub _ _) as [|saved]; [by rewrite lookup_drop|].
      destruct (0 <? saved); [|by rewrite lookup_drop].
      by rewrite list_lookup_fmap, lookup_drop.
Qed.

Lemma elem_of_drop_NoDup (plan : list nat) (i j r : nat) :
  NoDup plan -> plan !! j = Some r -> r ∈ drop i plan <-> (i <= j)%nat.
Proof.
  intros Hnodup Hj. split.
  - intros (j' & Hj')%list_elem_of_lookup. rewrite lookup_drop in Hj'.
    pose proof (NoDup_lookup _ _ _ _ Hnodup Hj Hj'). lia.
  - intros Hle. apply list_elem_of_lookup. exists (j - i)%nat.
    rewrite lookup_drop. by replace (i + (j - i))%nat with j by lia.
Qed.

(** On an array without repeated references, the update on references
    returns the same array and shows the plan that the update on topic
    values computes. *)
Theorem updateTopicTimingRef_refines (objs : gmap nat Topic) (plan : list nat)
    (topics : list Topic) (topicId actualTime : Z) :
  NoDup plan ->
  readPlan objs plan = Some <$> topics ->
  (updateTopicTimingRef other objs plan topicId actualTime).1 = plan
  /\ readPlan (updateTopicTimingRef other objs plan topicId actualTime).2 plan
     = Some <$> updateTopicTiming other topics topicId actualTime.
Proof.
  intros Hnodup Hread.
  pose proof (list_find_ref objs plan topics topicId Hread) as Hfind.
  unfold updateTopicTimingRef.
  destruct (list_find (fun t => topic_id t = topicId) topics)
    as [[k t]|] eqn:Htopics.
  2:{ rewrite Hfind. simpl. split; [done|].
      by rewrite updateTopicTiming_not_found. }
  destruct Hfind as (r & Hfind & Hr).
  pose proof Hfind as (Hk & _ & _)%list_find_Some.
  rewrite Hfind, Hr.
  split.
  { destruct (js_sub _ _) as [|saved]; [done|]. by destruct (0 <? saved). }
  apply list_eq. intros j.
  rewrite list_lookup_fmap, (updateTopicTiming_lookup _ _ _ k t) by done.
  unfold readPlan. rewrite list_lookup_fmap.
  pose proof (readPlan_lookup objs plan topics j Hread) as Hj.
  destruct (plan !! j) as [rj|] eqn:Hpj; simpl.
  - destruct Hj as (tj & Htj & Hobj). rewrite Htj.
    assert (Hsame : rj = r <-> j = k).
    { split; [|intros ->; congruence].
      intros ->. apply (NoDup_lookup _ _ _ _ Hnodup Hpj Hk). }
    assert (Hmark : <[r:=markCompleted actualTime t]> objs !! rj
                    = if decide (j = k) then Some (markCompleted actualTime t)
                      else Some tj).
    { destruct (decide (j = k)) as [Hjk|Hjk].
      - apply Hsame in Hjk as ->. apply lookup_insert_eq.
      - rewrite lookup_insert_ne; [done|]. intros Heq. by apply Hjk, Hsame. }
    assert (Hlater : rj ∈ drop (k + 1) plan <-> (k + 1 <= j)%nat)
      by (by apply elem_of_drop_NoDup).
    assert (Hkept : <[r:=markCompleted actualTime t]> objs !! rj
                    = if decide (j < k)%nat then Some tj
                      else if decide (j = k)
                           then Some (markCompleted actualTime t)
                           else Some tj).
    { rewrite Hmark. destruct (decide (j < k)%nat); [|done].
      rewrite decide_False by lia. done. }
    destruct (js_sub _ _) as [|saved]; simpl;
      [rewrite Hkept; by repeat case_decide|].
    destruct (0 <? saved); simpl;
      [|rewrite Hkept; by repeat case_decide].
    rewrite shiftLoopRef_lookup
      by (try done; apply lookup_lt_Some in Hk; lia).
    rewrite Hmark.
    destruct (decide (j < k)%nat) as [Hlt|Hnlt].
    { rewrite (decide_False (P := rj ∈ drop (k + 1) plan))
        by (rewrite Hlater; lia).
      by rewrite decide_False by lia. }
    destruct (decide (j = k)) as [Heq|Hne].
    { by rewrite (decide_False (P := rj ∈ drop (k + 1) plan))
        by (rewrite Hlater; lia). }
    by rewrite (decide_True (P := rj ∈ drop (k + 1) plan))
      by (rewrite Hlater; lia).
  - rewrite Hj.
    apply list_find_Some in Htopics as (Htk & _ & _).
    apply lookup_lt_Some in Htk. apply lookup_ge_None in Hj.
    repeat case_decide; try lia.
    destruct (js_sub _ _) as [|saved]; [done|]. by destruct (0 <? saved).
Qed.

(** The array that holds a fresh plan has no repeated reference and shows
    the plan. *)
Lemma freshPlan_ok (topics : list Topic) :
  NoDup (freshPlan topics).1
  /\ readPlan (freshPlan topics).2 (freshPlan topics).1 = Some <$> topics.
Proof.
  unfold freshPlan, readPlan; simpl. split; [apply NoDup_seq|].
  apply list_eq. intros j. rewrite !list_lookup_fmap.
  destruct (decide (j < length topics)%nat) as [Hlt|Hge].
  - rewrite lookup_seq_lt by done. simpl. rewrite lookup_map_seq_0.
    by destruct (lookup_lt_is_Some_2 topics j Hlt) as [t ->].
  - rewrite lookup_seq_ge by lia.
    by rewrite (lookup_ge_None_2 topics j) by lia.
Qed.

(** A fresh plan, updated through its references, shows the plan that
    the update on topic values computes. *)
Corollary updateTopicTimingRef_fresh (topics : list Topic)
    (topicId actualTime : Z) :
  readPlan (updateTopicTimingRef other (freshPlan topics).2
              (freshPlan topics).1 topicId actualTime).2
           (freshPlan topics).1
  = Some <$> updateTopicTiming other topics topicId actualTime.
Proof.
  destruct (freshPlan_ok topics) as [Hnodup Hread].
  by apply updateTopicTimingRef_refines.
Qed.

(** Without the hypothesis the two differ: an object that the array
    references twice after the completed topic is shifted twice. *)
Lemma aliasing_shifts_twice :
  readPlan aliasedObjs aliasedPlan
    = Some <$> [ sampleTopic 1 "9:00 AM" "9:30 AM" 30;
                 sampleTopic 2 "9:30 AM" "10:00 AM" 30;
                 sampleTopic 2 "9:30 AM" "10:00 AM" 30 ]
  /\ (fun o : option Topic => start_time <$> o)
       <$> readPlan (updateTopicTimingRef other aliasedObjs aliasedPlan 1 20).2
             aliasedPlan
     = [Some "9:00 AM"; Some "9:10 AM"; Some "9:10 AM"]
  /\ start_time
       <$> updateTopicTiming other
             [ sampleTopic 1 "9:00 AM" "9:30 AM" 30;
               sampleTopic 2 "9:30 AM" "10:00 AM" 30;
               sampleTopic 2 "9:30 AM" "10:00 AM" 30 ] 1 20
     = ["9:00 AM"; "9:20 AM"; "9:20 AM"].
Proof. repeat split; vm_compute; reflexivity. Qed.

End RefFacts.

(** ** From the normaliser to the state *)

(** A kept record with string times, whose companion (if any) has string
    times and an integer duration, gives a topic of type [Topic]. *)
Lemma asTopic_transformTopic (schedule : list Item.t) (i : nat)
    (item : Item.t) :
  qualifies item ->
  is_Some (asString (Item.start_time item)) ->
  is_Some (asString (Item.end_time item)) ->
  (forall q, q ∈ schedule -> companion_of item q ->
     is_Some (asString (Item.start_time q))
     /\ is_Some (asString (Item.end_time q))
     /\ is_Some (asNumber (Item.duration q))) ->
  is_Some (asTopic (transformTopic schedule i item)).
Proof.
  intros [Hname Htext] [start Hstart] [finish Hfinish] Hcomp.
  unfold asTopic, transformTopic; simpl.
  destruct (Item.topic item) as [| |name]; try done.
  destruct (Item.summary item) as [| |text]; try done.
  destruct (Item.start_time item) as [| |start']; try done.
  destruct (Item.end_time item) as [| |finish']; try done.
  simpl.
  destruct (List.find (is_companion item) schedule) as [q|] eqn:Hfind; simpl.
  - apply find_some in Hfind as [Hin Hq].
    apply list_elem_of_In in Hin. apply is_companion_spec in Hq.
    destruct (Hcomp q Hin Hq) as ([qs Hqs] & [qe Hqe] & [qd Hqd]).
    destruct (Item.start_time q) as [| |qs']; try done.
    destruct (Item.end_time q) as [| |qe']; try done.
    destruct (Item.duration q) as [| |qd']; try done.
    unfold str_or; simpl. by destruct (negb (String.eqb qe' "")).
  - done.
Qed.

(** The three sample records give the sample plan (with the session
    breakdown and the default texts), and completing its first topic in
    20 minutes moves the two later topics 10 minutes earlier. *)
Lemma pipeline_example (other : string -> Z -> string) :
  exists plan, mapM asTopic (transformedPlan sampleSchedule) = Some plan
    /\ topic_id <$> plan = [1; 2; 3]
    /\ start_time <$> plan = start_time <$> samplePlan
    /\ end_time <$> plan = end_time <$> samplePlan
    /\ allocated_time <$> plan = allocated_time <$> samplePlan
    /\ start_time <$> updateTopicTiming other plan 1 20
       = ["9:00 AM"; "9:20 AM"; "9:50 AM"].
Proof. eexists. split; [vm_compute; reflexivity|]. by repeat split. Qed.


(** * Further properties *)

(** ** The log *)

Lemma slice_last_length {A : Type} (n : nat) (l : list A) :
  length (slice_last n l) = Nat.min n (length l).
Proof. unfold slice_last. rewrite length_drop. lia. Qed.

Lemma slice_last_short {A : Type} (n : nat) (l : list A) :
  (length l <= n)%nat -> slice_last n l = l.
Proof.
  intros Hle. unfold slice_last.
  by replace (length l - n)%nat with 0%nat by lia.
Qed.

Lemma slice_last_app {A : Type} (n : nat) (l k : list A) :
  slice_last n (slice_last n l ++ k) = slice_last n (l ++ k).
Proof.
  destruct (decide (length l <= n)%nat) as [Hle|Hgt].
  - by rewrite (slice_last_short n l).
  - unfold slice_last.
    rewrite !length_app, length_drop.
    replace (length l - (length l - n) + length k - n)%nat
      with (length k) by lia.
    replace (length l + length k - n)%nat
      with ((length l - n) + length k)%nat by lia.
    rewrite <- drop_drop.
    rewrite (drop_app_le l k (length l - n)) by lia.
    done.
Qed.

Lemma addLog_length (timestamp message : string) (prev : list string) :
  (length (addLog timestamp message prev) <= 50)%nat.
Proof. unfold addLog. rewrite slice_last_length. lia. Qed.

(** X1.  After [addLog] the log has at most 50 lines, its last line is the
    new one, and the lines before it are the end of the old log: nothing is
    reordered, only the oldest lines are dropped. *)
Theorem addLog_bounded (timestamp message : string) (prev : list string) :
  (length (addLog timestamp message prev) <= 50)%nat
  /\ last (addLog timestamp message prev)
     = Some (logLine (timestamp, message))
  /\ addLog timestamp message prev
       `suffix_of` (prev ++ [logLine (timestamp, message)])
  /\ ((length prev < 50)%nat ->
      addLog timestamp message prev = prev ++ [logLine (timestamp, message)]).
Proof.
  unfold addLog, logLine; simpl.
  set (line := "[" +:+ timestamp +:+ "] " +:+ message).
  split; [rewrite slice_last_length; lia|].
  split; [|split].
  - unfold slice_last. rewrite length_app; simpl.
    rewrite drop_app_le by lia. apply last_snoc.
  - apply suffix_drop.
  - intros Hlt. apply slice_last_short. rewrite length_app; simpl. lia.
Qed.

Lemma addLog_bounded_witness :
  (length ["[t0] started"] < 50)%nat
  /\ addLog "t1" "done" ["[t0] started"] = ["[t0] started"; "[t1] done"].
Proof.
  split; [simpl; lia|].
  apply (proj2 (proj2 (proj2 (addLog_bounded "t1" "done" ["[t0] started"])))).
  simpl; lia.
Defined.

(** X2.  Starting from the empty log, after any number of calls the log
    holds the last 50 of all the lines logged, in the order of the calls. *)
Theorem logAll_last_50 (entries : list (string * string)) :
  logAll entries [] = slice_last 50 (logLine <$> entries).
Proof.
  induction entries as [|e entries IH] using rev_ind.
  - done.
  - unfold logAll in *. rewrite foldl_snoc, IH. unfold addLog.
    rewrite fmap_app. simpl. apply slice_last_app.
Qed.

(** ** The title of a card *)

Lemma stripBold_head (c : ascii) (s : string) :
  Ascii.eqb c "*" = false ->
  exists r, stripBold (String c s) = String c r.
Proof.
  intros Hc. destruct s as [|c' s]; simpl; [by eexists|].
  rewrite Hc. simpl. by eexists.
Qed.

Lemma stripBold_cons2 (c c' : ascii) (s2 : string) :
  stripBold (String c (String c' s2))
  = if Ascii.eqb c "*" && Ascii.eqb c' "*" then stripBold s2
    else String c (stripBold (String c' s2)).
Proof. reflexivity. Qed.

Lemma hasBold_cons2 (c c' : ascii) (s2 : string) :
  hasBold (String c (String c' s2))
  = (Ascii.eqb c "*" && Ascii.eqb c' "*") || hasBold (String c' s2).
Proof. reflexivity. Qed.

Lemma stripBold_no_marker_upto (n : nat) (s : string) :
  (String.length s <= n)%nat -> hasBold (stripBold s) = false.
Proof.
  revert s. induction n as [|n IH]; intros s Hlen.
  - destruct s; [done|simpl in Hlen; lia].
  - destruct s as [|c [|c' s2]]; [done..|].
    rewrite stripBold_cons2.
    destruct (Ascii.eqb c "*" && Ascii.eqb c' "*") eqn:Hstars.
    + apply IH. simpl in Hlen. lia.
    + assert (Hrest : hasBold (stripBold (String c' s2)) = false)
        by (apply IH; simpl in *; lia).
      destruct (Ascii.eqb c' "*") eqn:Hc'.
      * rewrite andb_true_r in Hstars.
        destruct (stripBold (String c' s2)) as [|d r] eqn:Hs; [reflexivity|].
        rewrite hasBold_cons2, Hstars. exact Hrest.
      * destruct (stripBold_head c' s2 Hc') as [r Hr]. rewrite Hr in *.
        rewrite hasBold_cons2, Hc', andb_false_r. exact Hrest.
Qed.

Lemma stripBold_unmarked_upto (n : nat) (s : string) :
  (String.length s <= n)%nat -> hasBold s = false -> stripBold s = s.
Proof.
  revert s. induction n as [|n IH]; intros s Hlen Hno.
  - destruct s; [done|simpl in Hlen; lia].
  - destruct s as [|c [|c' s2]]; [done..|].
    rewrite hasBold_cons2 in Hno. apply orb_false_iff in Hno as [Hstars Hrest].
    rewrite stripBold_cons2, Hstars. f_equal.
    apply IH; [simpl in *; lia|done].
Qed.

(** X3.  The displayed title never contains the marker ["**"]; a title
    without the marker is displayed as it is, so stripping twice changes
    nothing more. *)
Theorem stripBold_removes_marker (s : string) :
  hasBold (stripBold s) = false
  /\ (hasBold s = false -> stripBold s = s)
  /\ stripBold (stripBold s) = stripBold s.
Proof.
  assert (Hno : hasBold (stripBold s) = false)
    by (by apply (stripBold_no_marker_upto (String.length s))).
  split; [done|]. split.
  - by apply (stripBold_unmarked_upto (String.length s)).
  - by apply (stripBold_unmarked_upto (String.length (stripBold s))).
Qed.

Lemma stripBold_removes_marker_witness :
  hasBold "Linear Algebra" = false
  /\ stripBold "Linear Algebra" = "Linear Algebra".
Proof.
  split; [reflexivity|].
  exact (proj1 (proj2 (stripBold_removes_marker "Linear Algebra")) eq_refl).
Defined.

(** ** Navigation *)

(** X4.  With a render between presses, the Previous and Next buttons never
    move the current index out of a non-empty plan. *)
Theorem navigate_in_range (studyPlanLength : nat) (index : Z)
    (presses : list NavPress) :
  0 <= index < Z.of_nat studyPlanLength ->
  0 <= navigate studyPlanLength index presses < Z.of_nat studyPlanLength.
Proof.
  revert index. unfold navigate.
  induction presses as [|p presses IH]; intros index Hrange; [done|].
  simpl. apply IH.
  destruct p; unfold pressPrevious, pressNext.
  - destruct (Z.ltb_spec 0 index); simpl; lia.
  - destruct (Z.ltb_spec index (Z.of_nat studyPlanLength - 1)); simpl; lia.
Qed.

Lemma navigate_in_range_witness :
  0 <= 0 < Z.of_nat 3
  /\ 0 <= navigate 3 0 [Next; Next; Next; Previous; Next; Next] < Z.of_nat 3.
Proof.
  split; [simpl; lia|].
  apply (navigate_in_range 3 0 [Next; Next; Next; Previous; Next; Next]).
  simpl; lia.
Defined.

(** X5.  Before the last topic, Next moves one topic forward without an
    alert and Previous undoes it; from the last topic on, Next leaves the
    index and raises the completion alert, and the button is labelled
    "Finish" exactly at the last topic; Previous does nothing at the first
    topic. *)
Theorem next_previous (studyPlanLength : nat) (index : Z) :
  (0 <= index < Z.of_nat studyPlanLength - 1 ->
     pressNext studyPlanLength index index
       = (index + 1, [scrollToCurrentTopic index])
     /\ (pressPrevious (index + 1) (index + 1)).1 = index)
  /\ (Z.of_nat studyPlanLength - 1 <= index ->
        pressNext studyPlanLength index index = (index, [AlertComplete]))
  /\ (nextLabel studyPlanLength index = "Finish"
        <-> index = Z.of_nat studyPlanLength - 1)
  /\ pressPrevious 0 0 = (0, []).
Proof.
  unfold pressNext, pressPrevious, nextLabel. repeat split.
  - destruct (Z.ltb_spec index (Z.of_nat studyPlanLength - 1)); [done|lia].
  - destruct (Z.ltb_spec 0 (index + 1)); simpl; lia.
  - destruct (Z.ltb_spec index (Z.of_nat studyPlanLength - 1)); [lia|done].
  - destruct (Z.eqb_spec index (Z.of_nat studyPlanLength - 1)); [done|].
    discriminate.
  - intros ->. by rewrite Z.eqb_refl.
Qed.

Lemma next_previous_witness :
  0 <= 1 < Z.of_nat 3 - 1
  /\ pressNext 3 1 1 = (2, [scrollToCurrentTopic 1])
  /\ (pressPrevious 2 2).1 = 1.
Proof.
  split; [simpl; lia|].
  apply (proj1 (next_previous 3 1)). simpl; lia.
Defined.

(** ** The quiz *)

Section QuizFacts.
Variable other : string -> string.

Lemma pressOption_keys (quiz : list MCQ) (press : nat * nat)
    (answers : gmap nat string) (i : nat) :
  is_Some (pressOption other quiz press answers !! i) ->
  is_Some (answers !! i) \/ (i < length quiz)%nat.
Proof.
  unfold pressOption, handleAnswerSelect.
  destruct (modalRenders quiz); [|by left].
  destruct (quiz !! press.1) as [q|] eqn:Hq; [|by left].
  destruct (options q !! press.2) as [o|]; [|by left].
  destruct (optionKey other o) as [key|]; [|by left].
  destruct (decide (press.1 = i)) as [<-|Hne].
  - intros _. right. by apply lookup_lt_Some in Hq.
  - rewrite lookup_insert_ne by done. by left.
Qed.

Lemma answersAfter_keys (quiz : list MCQ) (presses : list (nat * nat))
    (i : nat) :
  is_Some (answersAfter other quiz presses !! i) -> (i < length quiz)%nat.
Proof.
  unfold answersAfter.
  induction presses as [|p presses IH] using rev_ind.
  - simpl. rewrite lookup_empty. by intros [? ?].
  - rewrite foldl_snoc. intros [Hold|Hnew]%pressOption_keys; auto.
Qed.

(** X6.  After Start Quiz and any presses, only questions of the quiz have
    an answer; so when the Evaluate button is enabled, every question has
    one. *)
Theorem enabled_means_all_answered (t : Topic) (presses : list (nat * nat)) :
  (forall i : nat,
     is_Some (answersAfter other (qna t) presses !! i) ->
     (i < length (qna t))%nat)
  /\ (evaluateDisabled (Some t) (answersAfter other (qna t) presses) = false ->
      forall i : nat, (i < length (qna t))%nat ->
        is_Some (answersAfter other (qna t) presses !! i)).
Proof.
  split; [intros i; apply answersAfter_keys|].
  unfold evaluateDisabled. intros Hen%Nat.ltb_ge i Hi.
  set (answers := answersAfter other (qna t) presses) in *.
  assert (Hsub : dom answers ⊆ (set_seq 0 (length (qna t)) : gset nat)).
  { intros j Hj%elem_of_dom. apply elem_of_set_seq.
    apply answersAfter_keys in Hj. lia. }
  assert (Heq : dom answers = set_seq 0 (length (qna t))).
  { apply set_subseteq_size_eq; [done|].
    rewrite size_set_seq, size_dom. done. }
  apply elem_of_dom. rewrite Heq. apply elem_of_set_seq. lia.
Qed.

(** X7.  The last press on a question decides: when the modal renders,
    whatever was pressed
    before, after pressing an option of question [i] the evaluation marks
    question [i] correct exactly when the key of that option is the correct
    key. *)
Theorem last_press_decides (t : Topic) (presses : list (nat * nat))
    (i o : nat) (q : MCQ) (opt key : string) :
  modalRenders (qna t) = true ->
  qna t !! i = Some q ->
  options q !! o = Some opt ->
  optionKey other opt = Some key ->
  exists score results r,
    evaluateAnswers (Some t) (answersAfter other (qna t) (presses ++ [(i, o)]))
      = Some (score, results)
    /\ results !! i = Some r
    /\ selected r = Some key
    /\ (isCorrect r = true <-> key = correct q).
Proof.
  intros Hrenders Hq Hopt Hkey.
  set (answers := answersAfter other (qna t) (presses ++ [(i, o)])).
  assert (Hans : answers !! i = Some key).
  { unfold answers, answersAfter. rewrite foldl_snoc.
    unfold pressOption; simpl. rewrite Hrenders, Hq, Hopt, Hkey.
    apply lookup_insert_eq. }
  unfold evaluateAnswers. rewrite evaluateFrom_start.
  eexists _, _, (resultAt answers i q).
  split; [reflexivity|].
  split; [by rewrite list_lookup_imap, Hq|].
  unfold resultAt; simpl. rewrite Hans. split; [done|].
  rewrite bool_decide_eq_true. split; [by intros [=]|by intros ->].
Qed.

End QuizFacts.

Lemma enabled_means_all_answered_witness :
  evaluateDisabled (Some sampleQuizTopic)
    (answersAfter (fun s => s) (qna sampleQuizTopic) [(0, 1); (1, 3); (0, 0)])%nat
  = false
  /\ forall i : nat, (i < length (qna sampleQuizTopic))%nat ->
       is_Some (answersAfter (fun s => s) (qna sampleQuizTopic)
                  [(0, 1); (1, 3); (0, 0)]%nat !! i).
Proof.
  split; [reflexivity|].
  apply (proj2 (enabled_means_all_answered (fun s => s) sampleQuizTopic
                  [(0, 1); (1, 3); (0, 0)]%nat)).
  reflexivity.
Defined.

Lemma last_press_decides_witness :
  qna sampleQuizTopic !! 1%nat
    = Some {| question := "Why are rings important?";
              options := ["a) Reason 1"; "b) Reason 2"; "c) Reason 3";
                          "d) All of the above"];
              correct := "d" |}
  /\ exists score results r,
       evaluateAnswers (Some sampleQuizTopic)
         (answersAfter (fun s => s) (qna sampleQuizTopic)
            ([(1, 0)] ++ [(1, 3)])%nat)
         = Some (score, results)
       /\ results !! 1%nat = Some r
       /\ selected r = Some "d"
       /\ (isCorrect r = true <-> "d" = "d").
Proof.
  split; [reflexivity|].
  exact (last_press_decides (fun s => s) sampleQuizTopic [(1, 0)]%nat 1 3
           _ "d) All of the above" "d" eq_refl eq_refl eq_refl eq_refl).
Defined.

Lemma length_filter_all {A : Type} (P : A -> Prop)
    `{!forall x, Decision (P x)} (l : list A) :
  length (filter P l) = length l <-> Forall P l.
Proof.
  induction l as [|x l IH].
  - split; [constructor|done].
  - rewrite filter_cons. pose proof (length_filter P l) as Hle.
    destruct (decide (P x)) as [Hx|Hx]; simpl.
    + rewrite Forall_cons. split.
      * intros [=]. split; [done|]. by apply IH.
      * intros [_ Hl]. f_equal. by apply IH.
    + split; [lia|]. intros [? _]%Forall_cons. done.
Qed.

(** X8.  The score lies between 0 and the number of questions, and it is
    the number of questions exactly when every question has its correct key
    as answer. *)
Theorem full_score_iff_all_correct (t : Topic) (answers : gmap nat string) :
  exists (score : Z) (results : list Result),
    evaluateAnswers (Some t) answers = Some (score, results)
    /\ 0 <= score <= Z.of_nat (length (qna t))
    /\ (score = Z.of_nat (length (qna t))
        <-> forall (i : nat) (q : MCQ),
              qna t !! i = Some q -> answers !! i = Some (correct q)).
Proof.
  unfold evaluateAnswers. rewrite evaluateFrom_start.
  eexists _, _. split; [reflexivity|].
  unfold correctlyAnswered.
  pose proof (length_filter
                (fun iq : nat * MCQ => answers !! iq.1 = Some (correct iq.2))
                (imap pair (qna t))) as Hle.
  rewrite length_imap in Hle. split; [lia|].
  rewrite Nat2Z.inj_iff.
  replace (length (qna t)) with (length (imap pair (qna t)))
    by apply length_imap.
  rewrite length_filter_all, Forall_forall.
  split.
  - intros Hall i q Hq.
    apply (Hall (i, q)). apply list_elem_of_lookup. exists i.
    by rewrite list_lookup_imap, Hq.
  - intros Hall [i q] (j & Hj)%list_elem_of_lookup.
    rewrite list_lookup_imap in Hj.
    destruct (qna t !! j) as [q'|] eqn:Hq'; [|done].
    injection Hj as <- <-. simpl. by apply Hall.
Qed.

(** X9.  Whatever the topic name, the default quiz has two questions of
    four options each, the correct key of each question is the key of one
    of its options, and pressing option a) of the first and option d) of
    the second question gives the score 2. *)
Theorem default_quiz_solvable (other : string -> string) (topicName : string) :
  length (generateDefaultQnA topicName) = 2%nat
  /\ Forall (fun q => length (options q) = 4%nat
                      /\ Some (correct q) ∈ optionKey other <$> options q)
       (generateDefaultQnA topicName)
  /\ fst <$> evaluateAnswers
               (Some (topicWithQuiz (generateDefaultQnA topicName)))
               (answersAfter other (generateDefaultQnA topicName)
                  [(0, 0); (1, 3)]%nat)
     = Some 2.
Proof.
  split; [done|]. split.
  - apply Forall_cons. split; [|apply Forall_cons; split; [|constructor]].
    + split; [done|]. apply list_elem_of_fmap.
      exists "a) Option A". split; [reflexivity|]. simpl. left.
    + split; [done|]. apply list_elem_of_fmap.
      exists "d) All of the above". split; [reflexivity|]. simpl.
      do 3 right. left.
  - reflexivity.
Qed.

(** ** Reading the minutes of a completion *)

Lemma pretty_N_go_append (x : N) (s r : string) :
  pretty_N_go x s +:+ r = pretty_N_go x (s +:+ r).
Proof.
  revert s. induction (N.lt_wf_0 x) as [x _ IH]; intros s.
  destruct (decide (0 < x)%N) as [Hpos|Hzero].
  - rewrite (pretty_N_go_step x s), (pretty_N_go_step x (s +:+ r)) by done.
    assert (Hlt : (x `div` 10 < x)%N) by (apply N.div_lt; [done|reflexivity]).
    by rewrite (IH _ Hlt).
  - replace x with 0%N by lia. by rewrite !pretty_N_go_0.
Qed.

Lemma pretty_N_char_digit (d : N) :
  (d < 10)%N ->
  radixDigit 10 (pretty_N_char d) = Some (Z.of_N d)
  /\ isWhiteSpaceAscii (pretty_N_char d) = false
  /\ (128 <=? nat_of_ascii (pretty_N_char d))%nat = false
  /\ Ascii.eqb (pretty_N_char d) "-" = false
  /\ Ascii.eqb (pretty_N_char d) "+" = false
  /\ (d <> 0%N -> Ascii.eqb (pretty_N_char d) "0" = false).
Proof.
  intros Hd.
  assert (d = 0 \/ d = 1 \/ d = 2 \/ d = 3 \/ d = 4 \/ d = 5 \/ d = 6
          \/ d = 7 \/ d = 8 \/ d = 9)%N as Hcases by lia.
  repeat destruct Hcases as [->|Hcases]; try subst d; by repeat split.
Qed.

(** The numeral of a positive number starts with a non-zero digit. *)
Lemma pretty_N_go_head (x : N) (s : string) :
  (0 < x)%N ->
  exists (d : N) (r : string),
    pretty_N_go x s = String (pretty_N_char d) r /\ (0 < d < 10)%N.
Proof.
  revert s. induction (N.lt_wf_0 x) as [x _ IH]; intros s Hpos.
  rewrite pretty_N_go_step by done.
  destruct (decide (0 < x `div` 10)%N) as [Hdiv|Hdiv].
  - apply IH; [apply N.div_lt; [done|reflexivity]|done].
  - assert (Hq : (x `div` 10 = 0)%N) by (by apply N.le_0_r, N.nlt_ge).
    rewrite Hq, pretty_N_go_0.
    exists (x `mod` 10)%N, s. split; [done|].
    pose proof (N.mod_lt x 10 ltac:(done)) as Hmod.
    pose proof (N.div_mod x 10 ltac:(done)) as Hx. rewrite Hq in Hx.
    revert Hmod Hx. generalize (x `mod` 10)%N. intros m Hmod Hx. lia.
Qed.

(** Scanning the numeral of a positive number reads that number. *)
Lemma scanDigits_pretty_N_go (x : N) (s : string) :
  (0 < x)%N ->
  scanDigits 10 None (pretty_N_go x s) = scanDigits 10 (Some (Z.of_N x)) s.
Proof.
  revert s. induction (N.lt_wf_0 x) as [x _ IH]; intros s Hpos.
  rewrite pretty_N_go_step by done.
  pose proof (N.mod_lt x 10 ltac:(done)) as Hmod.
  destruct (pretty_N_char_digit (x `mod` 10) Hmod) as (Hdigit & _).
  destruct (decide (0 < x `div` 10)%N) as [Hdiv|Hdiv].
  - rewrite IH by (first [apply N.div_lt; [done|reflexivity] | done]).
    simpl. rewrite Hdigit.
    f_equal. f_equal. pose proof (N.div_mod x 10 ltac:(done)) as Hx.
    revert Hx. generalize (x `mod` 10)%N (x `div` 10)%N. intros m q Hx. lia.
  - assert (Hq : (x `div` 10 = 0)%N) by (by apply N.le_0_r, N.nlt_ge).
    rewrite Hq, pretty_N_go_0.
    simpl. rewrite Hdigit. f_equal. f_equal.
    pose proof (N.div_mod x 10 ltac:(done)) as Hx. rewrite Hq in Hx.
    revert Hx. generalize (x `mod` 10)%N. intros m Hx. lia.
Qed.

Lemma scanDigits_stop (n : Z) (z : Z) (rest : string) :
  endsNumeral z rest -> scanDigits 10 (Some n) rest = Some n.
Proof. destruct rest as [|c r]; [done|]. simpl. by intros [-> _]. Qed.

Section ParseIntFacts.
Variable other : string -> jsnum.

Lemma parseInt_unsigned (c : ascii) (r : string) :
  isWhiteSpaceAscii c = false ->
  (128 <=? nat_of_ascii c)%nat = false ->
  Ascii.eqb c "-" = false -> Ascii.eqb c "+" = false ->
  Ascii.eqb c "0" = false ->
  parseInt other (String c r)
  = match scanDigits 10 None (String c r) with
    | Some n =>
        if n <=? MAX_SAFE_INTEGER then Num (1 * n) else other (String c r)
    | None => NaN
    end.
Proof.
  intros Hws Hascii Hminus Hplus Hzero.
  unfold parseInt. cbn [trimStartAscii]. rewrite Hws, Hascii.
  clear Hws Hascii.
  destruct c as [[] [] [] [] [] [] [] []];
    first [discriminate Hminus | discriminate Hplus | discriminate Hzero
          | reflexivity].
Qed.

Lemma parseInt_negative (c : ascii) (r : string) :
  Ascii.eqb c "0" = false ->
  parseInt other (String "-" (String c r))
  = match scanDigits 10 None (String c r) with
    | Some n =>
        if n <=? MAX_SAFE_INTEGER then Num (-1 * n)
        else other (String "-" (String c r))
    | None => NaN
    end.
Proof.
  intros Hzero. unfold parseInt. cbn [trimStartAscii].
  change (isWhiteSpaceAscii "-") with false. cbv iota.
  change (128 <=? nat_of_ascii "-")%nat with false. cbv iota.
  destruct c as [[] [] [] [] [] [] [] []];
    first [discriminate Hzero | reflexivity].
Qed.

Lemma parseInt_nonzero_digit (d : N) (r : string) (n : Z) :
  (0 < d < 10)%N ->
  scanDigits 10 None (String (pretty_N_char d) r) = Some n ->
  parseInt other (String (pretty_N_char d) r)
  = (if n <=? MAX_SAFE_INTEGER then Num n
     else other (String (pretty_N_char d) r))
  /\ parseInt other (String "-" (String (pretty_N_char d) r))
     = (if n <=? MAX_SAFE_INTEGER then Num (- n)
        else other (String "-" (String (pretty_N_char d) r))).
Proof.
  intros Hd Hscan.
  destruct (pretty_N_char_digit d) as (_ & Hws & Hascii & Hminus & Hplus & Hzero);
    [lia|].
  specialize (Hzero ltac:(lia)).
  rewrite parseInt_unsigned, parseInt_negative, Hscan by done.
  destruct (n <=? MAX_SAFE_INTEGER); [|done].
  split; f_equal; lia.
Qed.

(** The numeral of a positive integer, with or without a sign: read exactly
    up to [MAX_SAFE_INTEGER], left to the unspecified part above it. *)
Lemma parseInt_positive (p : positive) (rest : string) :
  endsNumeral (Z.pos p) rest ->
  parseInt other (pretty (Z.pos p) +:+ rest)
  = (if Z.pos p <=? MAX_SAFE_INTEGER then Num (Z.pos p)
     else other (pretty (Z.pos p) +:+ rest))
  /\ parseInt other (pretty (Z.neg p) +:+ rest)
     = (if Z.pos p <=? MAX_SAFE_INTEGER then Num (Z.neg p)
        else other (pretty (Z.neg p) +:+ rest)).
Proof.
  intros Hrest.
  change (pretty (Z.pos p)) with (pretty (N.pos p)).
  change (pretty (Z.neg p) +:+ rest)
    with (String "-" (pretty (N.pos p) +:+ rest)).
  unfold pretty, pretty_N.
  rewrite decide_False by done. rewrite pretty_N_go_append.
  change ("" +:+ rest) with rest.
  destruct (pretty_N_go_head (N.pos p) rest) as (d & r & Hhead & Hd); [done|].
  pose proof (scanDigits_pretty_N_go (N.pos p) rest ltac:(done)) as Hscan.
  rewrite (scanDigits_stop _ (Z.pos p)) in Hscan by done.
  rewrite Hhead in *.
  exact (parseInt_nonzero_digit d r _ Hd Hscan).
Qed.

Lemma parseInt_zero (rest : string) :
  endsNumeral 0 rest -> parseInt other (pretty 0 +:+ rest) = Num 0.
Proof.
  intros Hrest. change (pretty 0 +:+ rest) with (String "0" rest).
  destruct rest as [|c r]; [reflexivity|].
  destruct Hrest as (Hdigit & Hx & HX); [done|].
  unfold parseInt. cbn [trimStartAscii].
  change (isWhiteSpaceAscii "0") with false. cbv iota.
  change (128 <=? nat_of_ascii "0")%nat with false. cbv beta iota zeta.
  rewrite Hx, HX. cbn [orb scanDigits].
  change (radixDigit 10 "0") with (Some 0). cbv iota.
  by rewrite Hdigit.
Qed.

Lemma parseInt_pretty (z : Z) (rest : string) :
  Z.abs z <= MAX_SAFE_INTEGER ->
  endsNumeral z rest ->
  parseInt other (pretty z +:+ rest) = Num z.
Proof.
  intros Hsafe Hrest. destruct z as [|p|p].
  - by apply parseInt_zero.
  - destruct (parseInt_positive p rest Hrest) as [-> _].
    by replace (Z.pos p <=? MAX_SAFE_INTEGER) with true
      by (symmetry; apply Z.leb_le; lia).
  - destruct (parseInt_positive p rest) as [_ ->].
    + destruct rest; [done|]. destruct Hrest as [Hdigit _]. by split.
    + by replace (Z.pos p <=? MAX_SAFE_INTEGER) with true
        by (symmetry; apply Z.leb_le; lia).
Qed.

(** Above [MAX_SAFE_INTEGER] the model fixes no result: the numeral of
    9007199254740993, which the engine reads as 9007199254740992, is left to
    the unspecified part. *)
Lemma parseInt_unsafe (z : Z) (rest : string) :
  MAX_SAFE_INTEGER < Z.abs z ->
  endsNumeral z rest ->
  parseInt other (pretty z +:+ rest) = other (pretty z +:+ rest).
Proof.
  intros Hunsafe Hrest. destruct z as [|p|p].
  - done.
  - destruct (parseInt_positive p rest Hrest) as [-> _].
    by replace (Z.pos p <=? MAX_SAFE_INTEGER) with false
      by (symmetry; apply Z.leb_gt; lia).
  - destruct (parseInt_positive p rest) as [_ ->].
    + destruct rest; [done|]. destruct Hrest as [Hdigit _]. by split.
    + by replace (Z.pos p <=? MAX_SAFE_INTEGER) with false
        by (symmetry; apply Z.leb_gt; lia).
Qed.

(** X10.  [parseInt] reads back the decimal numeral of every safe integer
    (of magnitude at most [MAX_SAFE_INTEGER]), also when the numeral is
    followed by text that does not continue it (as in "25 min" or
    "25.5"). *)
Theorem parseInt_numeral (z : Z) (rest : string) :
  Z.abs z <= MAX_SAFE_INTEGER ->
  endsNumeral z rest ->
  parseInt other (pretty z +:+ rest) = Num z.
Proof. apply parseInt_pretty. Qed.

End ParseIntFacts.

Lemma parseInt_numeral_witness :
  Z.abs 25 <= MAX_SAFE_INTEGER
  /\ endsNumeral 25 " min" /\ parseInt (fun _ => NaN) "25 min" = Num 25.
Proof.
  assert (Hsafe : Z.abs 25 <= MAX_SAFE_INTEGER) by (vm_compute; discriminate).
  split; [exact Hsafe|]. split; [by split|].
  apply (parseInt_numeral (fun _ => NaN) 25 " min" Hsafe). by split.
Defined.

Lemma pretty_Z_nonempty (z : Z) (rest : string) :
  String.eqb (pretty z +:+ rest) "" = false.
Proof.
  destruct z as [|p|p]; [done| |done].
  change (pretty (Z.pos p)) with (pretty (N.pos p)).
  unfold pretty, pretty_N. rewrite decide_False by done.
  rewrite pretty_N_go_append.
  by destruct (pretty_N_go_head (N.pos p) ("" +:+ rest)) as (d & r & -> & _).
Qed.

Lemma submitTime_positive (other : string -> jsnum) (time : option string)
    (n : Z) :
  submitTime other time = Some n -> 0 < n.
Proof.
  unfold submitTime.
  destruct (parseInt other _) as [|actualTime]; [done|].
  destruct (Z.ltb_spec 0 actualTime); [|done]. by intros [= <-].
Qed.

Lemma submitTime_pretty (other : string -> jsnum) (z : Z) (rest : string) :
  Z.abs z <= MAX_SAFE_INTEGER ->
  endsNumeral z rest ->
  submitTime other (Some (pretty z +:+ rest))
  = if 0 <? z then Some z else None.
Proof.
  intros Hsafe Hrest. unfold submitTime.
  rewrite pretty_Z_nonempty. by rewrite parseInt_pretty.
Qed.

(** X11.  The Submit handler never hands a time of 0 or less to the update:
    a prompt without text, the empty text and the numeral of a safe integer
    up to 0 start no update, and the numeral of a positive safe integer
    (with or without text after it) starts the update with that integer. *)
Theorem submitTime_positive_only (other : string -> jsnum) :
  (forall (time : option string) (n : Z),
     submitTime other time = Some n -> 0 < n)
  /\ submitTime other None = None
  /\ submitTime other (Some "") = None
  /\ (forall (z : Z) (rest : string),
        Z.abs z <= MAX_SAFE_INTEGER -> endsNumeral z rest ->
        submitTime other (Some (pretty z +:+ rest))
        = if 0 <? z then Some z else None).
Proof.
  split; [|split; [reflexivity|split; [reflexivity|]]].
  - apply submitTime_positive.
  - apply submitTime_pretty.
Qed.

Lemma submitTime_positive_only_witness :
  submitTime (fun _ => NaN) (Some "20") = Some 20
  /\ 0 < 20.
Proof.
  split; [reflexivity|].
  apply (proj1 (submitTime_positive_only (fun _ => NaN)) (Some "20") 20).
  reflexivity.
Defined.

(** ** Marking a topic completed *)

Lemma list_find_by_id (plan : list Topic) (i : nat) (card : Topic) :
  NoDup (topic_id <$> plan) -> plan !! i = Some card ->
  list_find (fun t => topic_id t = topic_id card) plan = Some (i, card).
Proof.
  intros Hnodup Hi. apply list_find_Some. split; [done|]. split; [done|].
  intros j y Hj Hlt Heq.
  assert (i = j); [|lia].
  apply (NoDup_lookup _ _ _ (topic_id card) Hnodup);
    rewrite list_lookup_fmap; [by rewrite Hi|by rewrite Hj, <- Heq].
Qed.

Section FlowFacts.
Variable other : string -> Z -> string.
Variable pother : string -> jsnum.


(** X13.  In a plan whose [topic_id]s are pairwise different, completing
    the current, uncompleted card with the numeral of a positive safe
    integer (at most [MAX_SAFE_INTEGER]) and a successful request marks that
    very card completed with that time, its Mark Completed button is no
    longer shown, and the log stays within 50 lines. *)
Theorem markCompletedFlow_success (t1 t2 : string) (index : nat)
    (plan : list Topic) (logs : list string) (card : Topic) (n : Z)
    (rest : string) :
  NoDup (topic_id <$> plan) ->
  plan !! index = Some card ->
  completed card = false ->
  0 < n <= MAX_SAFE_INTEGER -> endsNumeral n rest ->
  let result :=
    markCompletedFlow other pother t1 t2 PostOk (Z.of_nat index) index
      (Submit (Some (pretty n +:+ rest))) (plan, logs) in
  result.1 = updateTopicTiming other plan (topic_id card) n
  /\ result.1 !! index = Some (markCompleted n card)
  /\ showsCompleteButton (Z.of_nat index) index (markCompleted n card) = false
  /\ (length result.2 <= 50)%nat.
Proof.
  intros Hnodup Hcard Hdone Hn Hrest result.
  pose proof (list_find_by_id plan index card Hnodup Hcard) as Hfind.
  assert (Hresult : result
    = updateTopicTimingAsync other t1 t2 PostOk (plan, logs) (topic_id card) n).
  { unfold result, markCompletedFlow; simpl. rewrite Hcard.
    unfold showsCompleteButton. rewrite Z.eqb_refl, Hdone. simpl.
    unfold completeTopic. rewrite Hfind.
    rewrite (submitTime_pretty pother) by (first [done | lia]).
    by replace (0 <? n) with true by (symmetry; apply Z.ltb_lt; lia). }
  rewrite Hresult. simpl. split; [done|]. split; [|split].
  - rewrite (updateTopicTiming_lookup other plan _ n index card) by done.
    rewrite decide_False by lia. by rewrite decide_True.
  - unfold showsCompleteButton. simpl. apply andb_false_r.
  - apply addLog_length.
Qed.

End FlowFacts.

Lemma markCompletedFlow_success_witness :
  NoDup (topic_id <$> samplePlan)
  /\ (markCompletedFlow sampleOther (fun _ => NaN) "t1" "t2" PostOk
        (Z.of_nat 0) 0 (Submit (Some (pretty 20 +:+ ""))) (samplePlan, [])).1
       !! 0%nat
     = Some (markCompleted 20 (sampleTopic 1 "9:00 AM" "9:30 AM" 30)).
Proof.
  assert (Hnodup : NoDup (topic_id <$> samplePlan)).
  { simpl. repeat (apply NoDup_cons; split;
      [rewrite ?elem_of_cons, elem_of_nil; lia|]). apply NoDup_nil_2. }
  split; [exact Hnodup|].
  apply (markCompletedFlow_success sampleOther (fun _ => NaN) "t1" "t2" 0
           samplePlan [] (sampleTopic 1 "9:00 AM" "9:30 AM" 30) 20 "");
    [exact Hnodup|reflexivity|reflexivity
    |split; [reflexivity|discriminate]|exact I].
Defined.

(** ** More on clock arithmetic *)

(** A total of the day is written as the clock string of that time. *)
Lemma formatTime_in_day (total : Z) :
  0 <= total < 1440 ->
  exists h m pm, valid_clock h m
    /\ formatTime total = clockString h m pm
    /\ minutesSinceMidnight h m pm = total.
Proof.
  intros Hrange. rewrite formatTime_clockString.
  eexists _, _, _. split; [|split; [reflexivity|]].
  - unfold valid_clock.
    destruct (Z.eqb_spec (Z.rem (total / 60) 12) 0) as [Hz|Hz];
      Z.to_euclidean_division_equations; lia.
  - unfold minutesSinceMidnight.
    destruct (Z.leb_spec 720 total) as [Hpm|Hpm];
      destruct (Z.eqb_spec (Z.rem (total / 60) 12) 0) as [Hz|Hz];
      Z.to_euclidean_division_equations; lia.
Qed.

Section MoreClockFacts.
Variable other : string -> Z -> string.

Lemma addMinutes_total (h m : Z) (pm : bool) (d : Z) :
  valid_clock h m -> (h = 12 -> pm = true) ->
  addMinutes other (clockString h m pm) d
  = formatTime (minutesSinceMidnight h m pm + d).
Proof.
  intros Hv H12. rewrite addMinutes_clockString, totalOf_clock by done.
  destruct (Z.eqb_spec h 12) as [Hh|Hh]; simpl; [|done].
  by rewrite (H12 Hh).
Qed.

Lemma addMinutes_writes_time (h m : Z) (pm : bool) (d : Z) :
  valid_clock h m -> (h = 12 -> pm = true) ->
  0 <= minutesSinceMidnight h m pm + d < 1440 ->
  exists h' m' pm', valid_clock h' m'
    /\ addMinutes other (clockString h m pm) d = clockString h' m' pm'
    /\ minutesSinceMidnight h' m' pm' = minutesSinceMidnight h m pm + d.
Proof.
  intros Hv H12 Hrange. rewrite addMinutes_total by done.
  by apply formatTime_in_day.
Qed.

(** X14.  On a valid clock string other than "12:MM AM", when the shifted
    time stays within the day, [addMinutes] returns the valid clock string
    of the time [delta] minutes later. *)
Theorem addMinutes_in_day (h m : Z) (pm : bool) (d : Z) :
  valid_clock h m -> (h = 12 -> pm = true) ->
  0 <= minutesSinceMidnight h m pm + d < 1440 ->
  exists h' m' pm', valid_clock h' m'
    /\ addMinutes other (clockString h m pm) d = clockString h' m' pm'
    /\ minutesSinceMidnight h' m' pm' = minutesSinceMidnight h m pm + d.
Proof. apply addMinutes_writes_time. Qed.

(** X25.  Past midnight the period stays "PM": when the shifted time lies
    in the first twelve hours of the next day, [addMinutes] writes the
    hour and minute of that time with "PM" instead of "AM". *)
Theorem addMinutes_past_midnight (h m : Z) (pm : bool) (d : Z) :
  valid_clock h m -> (h = 12 -> pm = true) ->
  1440 <= minutesSinceMidnight h m pm + d < 2160 ->
  exists h' m', valid_clock h' m'
    /\ addMinutes other (clockString h m pm) d = clockString h' m' true
    /\ minutesSinceMidnight h' m' false
       = minutesSinceMidnight h m pm + d - 1440.
Proof.
  intros Hv H12 Hrange. rewrite addMinutes_total by done.
  set (total := minutesSinceMidnight h m pm + d) in *.
  rewrite formatTime_clockString.
  replace (720 <=? total) with true by (symmetry; apply Z.leb_le; lia).
  eexists _, _. split; [|split; [reflexivity|]].
  - unfold valid_clock.
    destruct (Z.eqb_spec (Z.rem (total / 60) 12) 0) as [Hz|Hz];
      Z.to_euclidean_division_equations; lia.
  - unfold minutesSinceMidnight.
    destruct (Z.eqb_spec (Z.rem (total / 60) 12) 0) as [Hz|Hz];
      Z.to_euclidean_division_equations; lia.
Qed.


(** X16.  The hour 12 is read as 12 hours whatever the period: "12:MM AM"
    is shifted exactly like "12:MM PM", so for a shifted time within the
    day the result is the afternoon time, 12 hours off. *)
Theorem addMinutes_12AM_as_12PM (m d : Z) :
  0 <= m <= 59 ->
  addMinutes other (clockString 12 m false) d
  = addMinutes other (clockString 12 m true) d
  /\ (0 <= 720 + m + d < 1440 ->
      exists h' m' pm', valid_clock h' m'
        /\ addMinutes other (clockString 12 m false) d = clockString h' m' pm'
        /\ minutesSinceMidnight h' m' pm'
           = minutesSinceMidnight 12 m false + 720 + d).
Proof.
  intros Hm.
  assert (Hv : valid_clock 12 m) by (unfold valid_clock; lia).
  assert (Heq : addMinutes other (clockString 12 m false) d
                = addMinutes other (clockString 12 m true) d).
  { rewrite !addMinutes_clockString by done.
    by rewrite !totalOf_periodName. }
  split; [done|]. intros Hrange. rewrite Heq.
  destruct (addMinutes_writes_time 12 m true d Hv ltac:(done))
    as (h' & m' & pm' & ?).
  - unfold minutesSinceMidnight. change (12 mod 12) with 0. lia.
  - exists h', m', pm'. unfold minutesSinceMidnight in *.
    change (12 mod 12) with 0 in *. simpl in *. intuition lia.
Qed.

End MoreClockFacts.

Lemma addMinutes_in_day_witness :
  valid_clock 11 45 /\ (11 = 12 -> false = true)
  /\ 0 <= minutesSinceMidnight 11 45 false + 30 < 1440
  /\ exists h' m' pm', valid_clock h' m'
       /\ addMinutes sampleOther (clockString 11 45 false) 30
          = clockString h' m' pm'
       /\ minutesSinceMidnight h' m' pm'
          = minutesSinceMidnight 11 45 false + 30.
Proof.
  assert (Hv : valid_clock 11 45) by (unfold valid_clock; lia).
  assert (H12 : 11 = 12 -> false = true) by lia.
  assert (Hr : 0 <= minutesSinceMidnight 11 45 false + 30 < 1440)
    by (vm_compute; split; [discriminate|reflexivity]).
  split; [exact Hv|]. split; [exact H12|]. split; [exact Hr|].
  exact (addMinutes_in_day sampleOther 11 45 false 30 Hv H12 Hr).
Defined.


Lemma addMinutes_12AM_as_12PM_witness :
  0 <= 30 <= 59
  /\ addMinutes sampleOther (clockString 12 30 false) 0
     = addMinutes sampleOther (clockString 12 30 true) 0.
Proof.
  split; [lia|].
  apply (proj1 (addMinutes_12AM_as_12PM sampleOther 30 0 ltac:(lia))).
Defined.

(** ** More on the completion update *)

Section MoreReflowFacts.
Variable other : string -> Z -> string.

Lemma list_find_same_ids (plan plan' : list Topic) (topicId : Z) :
  topic_id <$> plan' = topic_id <$> plan ->
  fst <$> list_find (fun t => topic_id t = topicId) plan'
  = fst <$> list_find (fun t => topic_id t = topicId) plan.
Proof.
  intros Hids.
  pose proof (list_find_fmap topic_id (fun i => i = topicId) plan) as H1.
  pose proof (list_find_fmap topic_id (fun i => i = topicId) plan') as H2.
  rewrite Hids, H1 in H2.
  assert (Hfst : forall o : option (nat * Topic),
            fst <$> (prod_map id topic_id <$> o) = fst <$> o)
    by (by intros [[??]|]).
  rewrite <- (Hfst (list_find _ plan')), <- (Hfst (list_find _ plan)).
  unfold compose in H2. by rewrite H2.
Qed.

(** X17.  Applying the update a second time with the same arguments
    changes nothing more: the time saved is then 0, so no topic is shifted
    again. *)
Theorem updateTopicTiming_idempotent (plan : list Topic)
    (topicId actualTime : Z) :
  updateTopicTiming other
    (updateTopicTiming other plan topicId actualTime) topicId actualTime
  = updateTopicTiming other plan topicId actualTime.
Proof.
  destruct (list_find (fun t => topic_id t = topicId) plan)
    as [[k t]|] eqn:Hfind.
  2:{ by rewrite !updateTopicTiming_not_found
        by (by rewrite ?updateTopicTiming_not_found). }
  set (plan' := updateTopicTiming other plan topicId actualTime).
  assert (Hids : topic_id <$> plan' = topic_id <$> plan)
    by (by apply updateTopicTiming_preserves).
  pose proof (list_find_same_ids plan plan' topicId Hids) as Hfst.
  rewrite Hfind in Hfst. simpl in Hfst.
  assert (Hk : plan' !! k = Some (markCompleted actualTime t)).
  { unfold plan'.
    rewrite (updateTopicTiming_lookup other plan _ _ k t) by done.
    rewrite decide_False by lia. by rewrite decide_True. }
  destruct (list_find (fun t => topic_id t = topicId) plan')
    as [[k' t']|] eqn:Hfind'; [|done].
  injection Hfst as ->.
  pose proof Hfind' as (Hk' & _ & _)%list_find_Some.
  rewrite Hk in Hk'. injection Hk' as <-.
  rewrite (updateTopicTiming_found other plan' _ _ _ _ Hfind'). simpl.
  rewrite Z.sub_diag. simpl.
  change (markCompleted actualTime (markCompleted actualTime t))
    with (markCompleted actualTime t).
  by apply take_drop_middle.
Qed.

(** X18.  The update never resets [completed], never changes
    [suggested_time] or [sessions], and changes [allocated_time] and
    [completed] of no topic other than the one it completes. *)
Theorem updateTopicTiming_frame (plan : list Topic) (topicId actualTime : Z)
    (i : nat) (t : Topic) :
  plan !! i = Some t ->
  exists t', updateTopicTiming other plan topicId actualTime !! i = Some t'
    /\ (completed t = true -> completed t' = true)
    /\ suggested_time t' = suggested_time t
    /\ sessions t' = sessions t
    /\ (fst <$> list_find (fun u => topic_id u = topicId) plan <> Some i ->
        allocated_time t' = allocated_time t
        /\ completed t' = completed t).
Proof.
  intros Hi.
  destruct (list_find (fun u => topic_id u = topicId) plan)
    as [[k u]|] eqn:Hfind.
  2:{ rewrite updateTopicTiming_not_found by done. by exists t. }
  rewrite (updateTopicTiming_lookup other plan _ _ k u) by done.
  pose proof Hfind as (Hk & _ & _)%list_find_Some.
  destruct (decide (i < k)%nat); [by exists t|].
  destruct (decide (i = k)) as [->|Hne].
  - rewrite Hk in Hi. injection Hi as ->.
    exists (markCompleted actualTime t). split; [done|].
    by repeat split.
  - rewrite Hi.
    destruct (js_sub _ _) as [|saved]; [by exists t|].
    destruct (0 <? saved); [|by exists t].
    by exists (shiftTopic other saved t).
Qed.

(** X19.  The shift in clock terms: when time was saved, a later topic
    whose start and end are valid clock strings (other than "12:MM AM")
    and stay within the day gets the valid clock strings of the times
    [timeSaved] minutes earlier, so its length in minutes is unchanged. *)
Theorem reflow_shifts_clock (plan : list Topic) (topicId actualTime : Z)
    (k : nat) (t : Topic) (saved : Z) (i : nat) (u : Topic)
    (hs ms : Z) (ps : bool) (he me : Z) (pe : bool) :
  list_find (fun t => topic_id t = topicId) plan = Some (k, t) ->
  js_sub (allocated_time t) (Num actualTime) = Num saved -> 0 < saved ->
  (k < i)%nat -> plan !! i = Some u ->
  start_time u = clockString hs ms ps -> valid_clock hs ms ->
  (hs = 12 -> ps = true) ->
  end_time u = clockString he me pe -> valid_clock he me ->
  (he = 12 -> pe = true) ->
  0 <= minutesSinceMidnight hs ms ps - saved ->
  0 <= minutesSinceMidnight he me pe - saved ->
  exists u' hs' ms' ps' he' me' pe',
    updateTopicTiming other plan topicId actualTime !! i = Some u'
    /\ start_time u' = clockString hs' ms' ps' /\ valid_clock hs' ms'
    /\ end_time u' = clockString he' me' pe' /\ valid_clock he' me'
    /\ minutesSinceMidnight hs' ms' ps'
       = minutesSinceMidnight hs ms ps - saved
    /\ minutesSinceMidnight he' me' pe'
       = minutesSinceMidnight he me pe - saved
    /\ minutesSinceMidnight he' me' pe' - minutesSinceMidnight hs' ms' ps'
       = minutesSinceMidnight he me pe - minutesSinceMidnight hs ms ps.
Proof.
  intros Hfind Hsaved Hpos Hlater Hu Hs Hvs H12s He Hve H12e Hs0 He0.
  assert (Hday : forall h m pm, valid_clock h m ->
            minutesSinceMidnight h m pm < 1440).
  { intros h m pm [Hh Hm]. unfold minutesSinceMidnight.
    pose proof (Z.mod_pos_bound h 12 ltac:(lia)) as Hmod.
    revert Hmod. generalize (h mod 12). intros r Hr.
    destruct pm; cbv iota; lia. }
  pose proof (Hday hs ms ps Hvs) as Hds. pose proof (Hday he me pe Hve) as Hde.
  assert (Hrs : 0 <= minutesSinceMidnight hs ms ps + - saved < 1440) by lia.
  assert (Hre : 0 <= minutesSinceMidnight he me pe + - saved < 1440) by lia.
  destruct (addMinutes_writes_time other hs ms ps (- saved) Hvs H12s Hrs)
    as (hs' & ms' & ps' & Hvs' & Hstart & Hms).
  destruct (addMinutes_writes_time other he me pe (- saved) Hve H12e Hre)
    as (he' & me' & pe' & Hve' & Hend & Hme).
  exists (shiftTopic other saved u), hs', ms', ps', he', me', pe'.
  split.
  { rewrite (updateTopicTiming_lookup other plan _ _ k t) by done.
    rewrite !decide_False by lia. rewrite Hsaved.
    replace (0 <? saved) with true by (symmetry; by apply Z.ltb_lt).
    by rewrite Hu. }
  simpl. rewrite Hs, He, Hstart, Hend.
  unfold valid_clock in *. repeat split; try done; lia.
Qed.

End MoreReflowFacts.

Lemma updateTopicTiming_frame_witness :
  samplePlan !! 2%nat = Some (sampleTopic 3 "10:00 AM" "10:30 AM" 30)
  /\ exists t', updateTopicTiming sampleOther samplePlan 1 20 !! 2%nat = Some t'
       /\ suggested_time t' = Some (Num 30)
       /\ sessions t' = None.
Proof.
  split; [reflexivity|].
  destruct (updateTopicTiming_frame sampleOther samplePlan 1 20 2
              (sampleTopic 3 "10:00 AM" "10:30 AM" 30) eq_refl)
    as (t' & Ht' & _ & Hsuggested & Hsessions & _).
  exists t'. split; [exact Ht'|]. split; [exact Hsuggested|exact Hsessions].
Defined.

Lemma reflow_shifts_clock_witness :
  exists u' hs' ms' ps' he' me' pe',
    updateTopicTiming sampleOther samplePlan 1 20 !! 1%nat = Some u'
    /\ start_time u' = clockString hs' ms' ps' /\ valid_clock hs' ms'
    /\ end_time u' = clockString he' me' pe' /\ valid_clock he' me'
    /\ minutesSinceMidnight hs' ms' ps' = minutesSinceMidnight 9 30 false - 10
    /\ minutesSinceMidnight he' me' pe' = minutesSinceMidnight 10 0 false - 10
    /\ minutesSinceMidnight he' me' pe' - minutesSinceMidnight hs' ms' ps'
       = minutesSinceMidnight 10 0 false - minutesSinceMidnight 9 30 false.
Proof.
  apply (reflow_shifts_clock sampleOther samplePlan 1 20 0
           (sampleTopic 1 "9:00 AM" "9:30 AM" 30) 10 1
           (sampleTopic 2 "9:30 AM" "10:00 AM" 30) 9 30 false 10 0 false);
    try reflexivity; try lia;
    try (unfold valid_clock; lia);
    try (vm_compute; discriminate).
Defined.

(** ** More on the normaliser *)

Lemma transformedPlan_elem (schedule : list Item.t) (tp : Transformed.t) :
  tp ∈ transformedPlan schedule ->
  exists (i : nat) (item : Item.t),
    filter qualifies schedule !! i = Some item
    /\ tp = transformTopic schedule i item.
Proof.
  intros (i & Hi)%list_elem_of_lookup.
  rewrite transformedPlan_lookup in Hi.
  destruct (filter qualifies schedule !! i) as [item|] eqn:Hitem; [|done].
  injection Hi as <-. by exists i, item.
Qed.

Lemma num_or_30_nonzero (x : field Z) : num_or x 30 <> 0.
Proof.
  destruct x as [| |n]; simpl; try done.
  by destruct (Z.eqb_spec n 0).
Qed.

(** X20.  Every topic that the normaliser builds is not completed, has a
    non-empty topic name and summary, a [suggested_time] other than 0, and
    a session list that starts with the study session (of the topic's start
    time and with the [suggested_time] as duration) followed by at most one
    session, of type "qna"; and the plan is never longer than the input. *)
Theorem transformedPlan_shape (schedule : list Item.t) (tp : Transformed.t) :
  tp ∈ transformedPlan schedule ->
  Transformed.completed tp = false
  /\ present_nonempty (Transformed.topic tp)
  /\ present_nonempty (Transformed.summary tp)
  /\ Transformed.suggested_time tp <> 0
  /\ (exists study rest,
        Transformed.sessions tp = study :: rest
        /\ Transformed.type study = "study"
        /\ Transformed.duration study = Val (Transformed.suggested_time tp)
        /\ Transformed.s_start_time study = Transformed.start_time tp
        /\ (rest = [] \/ exists q, rest = [q] /\ Transformed.type q = "qna"))
  /\ (length (transformedPlan schedule) <= length schedule)%nat.
Proof.
  intros (i & item & Hitem & ->)%transformedPlan_elem.
  assert (Hq : qualifies item).
  { apply list_elem_of_lookup_2 in Hitem.
    by apply list_elem_of_filter in Hitem as [? _]. }
  destruct Hq as [Hname Htext].
  unfold transformTopic; simpl.
  split; [done|]. split; [done|]. split; [done|].
  split; [apply num_or_30_nonzero|]. split.
  - eexists _, _. split; [reflexivity|]. simpl. repeat split.
    destruct (List.find (is_companion item) schedule); [right|by left].
    by eexists.
  - unfold transformedPlan. rewrite length_imap, filter_keep.
    apply length_filter.
Qed.

Lemma transformedPlan_shape_witness :
  transformTopic sampleSchedule 0 (rawStudy 11 "9:00 AM" "9:30 AM")
    ∈ transformedPlan sampleSchedule
  /\ Transformed.suggested_time
       (transformTopic sampleSchedule 0 (rawStudy 11 "9:00 AM" "9:30 AM")) <> 0.
Proof.
  assert (Hin : transformTopic sampleSchedule 0 (rawStudy 11 "9:00 AM" "9:30 AM")
                ∈ transformedPlan sampleSchedule) by (vm_compute; left).
  split; [exact Hin|].
  apply (transformedPlan_shape sampleSchedule _ Hin).
Defined.

Lemma transformedPlan_ids (schedule : list Item.t) :
  Transformed.topic_id <$> transformedPlan schedule
  = seqZ 1 (Z.of_nat (length (transformedPlan schedule))).
Proof.
  apply list_eq. intros i. rewrite list_lookup_fmap.
  destruct (transformedPlan schedule !! i) as [tp|] eqn:Htp; simpl.
  - pose proof (lookup_lt_Some _ _ _ Htp) as Hlt.
    rewrite transformedPlan_lookup in Htp.
    destruct (filter qualifies schedule !! i) as [item|]; [|done].
    injection Htp as <-. simpl.
    rewrite lookup_seqZ_lt by lia. f_equal. lia.
  - apply lookup_ge_None in Htp. by rewrite lookup_seqZ_ge by lia.
Qed.

Lemma asTopic_fields (tp : Transformed.t) (t : Topic) :
  asTopic tp = Some t ->
  topic_id t = Transformed.topic_id tp
  /\ completed t = Transformed.completed tp
  /\ allocated_time t = Transformed.allocated_time tp.
Proof.
  unfold asTopic. intros Hcast.
  destruct (asString (Transformed.topic tp)); [|done].
  destruct (asString (Transformed.start_time tp)); [|done].
  destruct (asString (Transformed.end_time tp)); [|done].
  destruct (asString (Transformed.summary tp)); [|done].
  destruct (mapM asSession (Transformed.sessions tp)); [|done].
  simpl in Hcast. by injection Hcast as <-.
Qed.

(** X21.  When the normalised plan is stored as a plan of type [Topic[]],
    its [topic_id]s are 1, 2, ..., N without repetition and no topic is
    completed; so completing the topic with id [k + 1] marks exactly the
    topic at position [k]. *)
Theorem normalised_plan_completion (other : string -> Z -> string)
    (schedule : list Item.t) (plan : list Topic) :
  mapM asTopic (transformedPlan schedule) = Some plan ->
  topic_id <$> plan = seqZ 1 (Z.of_nat (length plan))
  /\ NoDup (topic_id <$> plan)
  /\ Forall (fun t => completed t = false) plan
  /\ forall (k : nat) (t : Topic) (actualTime : Z),
       plan !! k = Some t ->
       topic_id t = Z.of_nat k + 1
       /\ updateTopicTiming other plan (Z.of_nat k + 1) actualTime !! k
          = Some (markCompleted actualTime t).
Proof.
  intros Hcast%mapM_Some.
  pose proof (Forall2_length _ _ _ Hcast) as Hlen.
  assert (Hids : topic_id <$> plan = seqZ 1 (Z.of_nat (length plan))).
  { rewrite <- Hlen, <- transformedPlan_ids.
    apply list_eq. intros i. rewrite !list_lookup_fmap.
    destruct (plan !! i) as [t|] eqn:Ht.
    - destruct (Forall2_lookup_r _ _ _ _ _ Hcast Ht) as (tp & -> & Htp).
      simpl. f_equal. by apply asTopic_fields in Htp as (-> & _).
    - apply lookup_ge_None in Ht.
      by rewrite lookup_ge_None_2 by lia. }
  assert (Hnodup : NoDup (topic_id <$> plan))
    by (rewrite Hids; apply NoDup_seqZ).
  split; [done|]. split; [done|]. split.
  - apply Forall_forall. intros t (i & Ht)%list_elem_of_lookup.
    destruct (Forall2_lookup_r _ _ _ _ _ Hcast Ht) as (tp & Htp & Hc).
    apply asTopic_fields in Hc as (_ & -> & _).
    apply list_elem_of_lookup_2, transformedPlan_elem in Htp
      as (j & item & _ & ->). done.
  - intros k t actualTime Hk.
    assert (Hid : topic_id t = Z.of_nat k + 1).
    { assert (Hk' : (topic_id <$> plan) !! k = Some (topic_id t))
        by (by rewrite list_lookup_fmap, Hk).
      rewrite Hids in Hk'. apply lookup_seqZ in Hk'. lia. }
    split; [done|]. rewrite <- Hid.
    rewrite (updateTopicTiming_lookup other plan _ _ k t)
      by (by apply list_find_by_id).
    rewrite decide_False by lia. by rewrite decide_True.
Qed.

Lemma normalised_plan_completion_witness :
  exists plan, mapM asTopic (transformedPlan sampleSchedule) = Some plan
    /\ topic_id <$> plan = seqZ 1 (Z.of_nat (length plan))
    /\ NoDup (topic_id <$> plan).
Proof.
  eexists. split; [vm_compute; reflexivity|].
  split;
    apply (normalised_plan_completion sampleOther sampleSchedule _ eq_refl).
Defined.

(** ** Selecting and processing the syllabus *)

(** X22.  [pickDocument] never touches the loading flag or the plan.  The
    selected syllabus changes only when the picker returned a file and the
    file was found to exist; it is then that file, and the error is
    cleared.  A cancelled pick changes nothing, and every failure keeps the
    previous syllabus and sets the error "Failed to select PDF file". *)
Theorem pickDocument_outcomes {P : Type} (picker : PickerOutcome)
    (info : InfoOutcome) (st : FormState P) :
  let st' := pickDocument picker info st in
  loading st' = loading st
  /\ studyPlan st' = studyPlan st
  /\ (picker = PickerCanceled -> st' = st)
  /\ ((exists file rest, picker = PickerAssets (file :: rest)
         /\ info = InfoExists true
         /\ syllabus st' = Some file /\ error st' = Null)
      \/ (syllabus st' = syllabus st
          /\ (picker <> PickerCanceled ->
              error st' = Val "Failed to select PDF file"))).
Proof.
  unfold pickDocument.
  assert (Hfailed :
    forall picker', picker' <> PickerCanceled ->
      (exists file rest, picker' = PickerAssets (file :: rest)
         /\ info = InfoExists true
         /\ syllabus st = Some file
         /\ Val "Failed to select PDF file" = @Null string)
      \/ (syllabus st = syllabus st
          /\ (picker' <> PickerCanceled ->
              Val "Failed to select PDF file"
              = Val "Failed to select PDF file"))) by (intros; by right).
  destruct picker as [| |[|file rest]]; simpl.
  - split; [done|]. split; [done|]. split; [discriminate|].
    by apply Hfailed.
  - split; [done|]. split; [done|]. split; [done|]. right. by split.
  - split; [done|]. split; [done|]. split; [discriminate|].
    by apply Hfailed.
  - destruct info as [message|[|]]; simpl;
      (split; [done|]; split; [done|]; split; [discriminate|]).
    + by apply Hfailed.
    + left. exists file, rest. by destruct file.
    + by apply Hfailed.
Qed.

Lemma pickDocument_outcomes_witness :
  PickerCanceled = PickerCanceled
  /\ pickDocument PickerCanceled (InfoExists true)
       {| syllabus := None; loading := false; error := Null;
          studyPlan := @nil Topic |}
     = {| syllabus := None; loading := false; error := Null;
          studyPlan := @nil Topic |}.
Proof.
  split; [reflexivity|].
  apply (proj1 (proj2 (proj2 (pickDocument_outcomes PickerCanceled
           (InfoExists true)
           {| syllabus := None; loading := false; error := Null;
              studyPlan := @nil Topic |})))).
  reflexivity.
Defined.

Section ProcessFacts.
Context {P : Type}.
Variable store : list Transformed.t -> P.
Variable typeErrorMessage : string.

(** X23.  [processSyllabus] never changes the selected syllabus.  Without a
    syllabus it only sets the error "No syllabus PDF selected".  With one,
    the loading flag is off at the end in every case, and the plan is
    replaced only when the file exists and the response carries a schedule:
    it is then the normalised schedule (the empty plan for an empty
    schedule) and the error is cleared; in every other case the previous
    plan stays. *)
Theorem processSyllabus_outcomes (info : InfoOutcome) (post : PostOutcome)
    (st : FormState P) :
  let st' := processSyllabus store typeErrorMessage info post st in
  syllabus st' = syllabus st
  /\ (syllabus st = None ->
      loading st' = loading st /\ studyPlan st' = studyPlan st
      /\ error st' = Val "No syllabus PDF selected")
  /\ (syllabus st <> None ->
      loading st' = false
      /\ ((exists schedule,
             info = InfoExists true
             /\ post = PostResponds (Data (Val schedule))
             /\ studyPlan st' = store (transformedPlan schedule)
             /\ error st' = Null)
          \/ (studyPlan st' = studyPlan st
              /\ exists e, fetchSchedule typeErrorMessage info post = inl e
                   /\ error st' = errorMessageOf e))).
Proof.
  unfold processSyllabus.
  destruct (syllabus st) as [doc|] eqn:Hdoc; simpl.
  2:{ by repeat split. }
  destruct (fetchSchedule typeErrorMessage info post) as [e|schedule] eqn:Hfetch;
    simpl.
  - repeat split; try done. right. split; [done|]. by exists e.
  - repeat split; try done. left. exists schedule.
    unfold fetchSchedule in Hfetch.
    destruct info as [message|[|]]; try discriminate.
    destruct post as [e|[|[| |schedule']]]; try discriminate.
    by injection Hfetch as ->.
Qed.

(** X24.  After a failure that is not an axios error the error is a
    non-empty text, so the error banner is shown; an axios error without a
    response error and without a message leaves the error [undefined], and
    no banner is shown although the processing failed. *)
Theorem processSyllabus_error_shown (info : InfoOutcome) (post : PostOutcome)
    (st : FormState P) (doc : DocumentResult) :
  syllabus st = Some doc ->
  (forall message,
     fetchSchedule typeErrorMessage info post = inl (OtherError message) ->
     truthy_str (error (processSyllabus store typeErrorMessage info post st))
     = true)
  /\ (info = InfoExists true ->
      post = PostFails (AxiosError Undefined Undefined) ->
      error (processSyllabus store typeErrorMessage info post st) = Undefined
      /\ studyPlan (processSyllabus store typeErrorMessage info post st)
         = studyPlan st).
Proof.
  intros Hdoc. unfold processSyllabus. rewrite Hdoc. split.
  - intros message Hfetch. rewrite Hfetch. simpl.
    unfold str_or. by destruct (truthy_str message) eqn:Hm.
  - intros -> ->. simpl. done.
Qed.

End ProcessFacts.

Lemma processSyllabus_outcomes_witness :
  syllabus {| syllabus := @None DocumentResult; loading := true;
              error := Null; studyPlan := samplePlan |} = None
  /\ studyPlan (processSyllabus (fun _ => @nil Topic) "TypeError"
                  (InfoExists true) (PostResponds (Data (Val sampleSchedule)))
                  {| syllabus := None; loading := true; error := Null;
                     studyPlan := samplePlan |})
     = samplePlan.
Proof.
  split; [reflexivity|].
  apply (proj1 (proj2 (processSyllabus_outcomes (fun _ => @nil Topic)
           "TypeError" (InfoExists true)
           (PostResponds (Data (Val sampleSchedule)))
           {| syllabus := None; loading := true; error := Null;
              studyPlan := samplePlan |}))).
  reflexivity.
Defined.

Lemma processSyllabus_error_shown_witness :
  truthy_str
    (error (processSyllabus (fun tp : list Transformed.t => tp) "TypeError"
              (InfoExists false) (PostResponds NoData)
              {| syllabus := Some sampleDocument;
                 loading := false; error := Null; studyPlan := [] |}))
  = true.
Proof.
  apply (proj1 (processSyllabus_error_shown (fun tp => tp) "TypeError"
           (InfoExists false) (PostResponds NoData)
           {| syllabus := Some sampleDocument;
              loading := false; error := Null; studyPlan := [] |}
           sampleDocument eq_refl)
           (Val "File no longer exists")).
  reflexivity.
Defined.

(** ** The round trip, the session breakdown and the shared objects *)

Lemma addMinutes_past_midnight_witness :
  valid_clock 11 30 /\ (11 = 12 -> true = true)
  /\ 1440 <= minutesSinceMidnight 11 30 true + 60 < 2160
  /\ exists h' m', valid_clock h' m'
       /\ addMinutes sampleOther (clockString 11 30 true) 60
          = clockString h' m' true
       /\ minutesSinceMidnight h' m' false
          = minutesSinceMidnight 11 30 true + 60 - 1440.
Proof.
  assert (Hv : valid_clock 11 30) by (unfold valid_clock; lia).
  assert (H12 : 11 = 12 -> true = true) by done.
  assert (Hr : 1440 <= minutesSinceMidnight 11 30 true + 60 < 2160)
    by (vm_compute; split; [discriminate|reflexivity]).
  split; [exact Hv|]. split; [exact H12|]. split; [exact Hr|].
  exact (addMinutes_past_midnight sampleOther 11 30 true 60 Hv H12 Hr).
Defined.

(** X26.  For every valid clock string other than "12:MM AM" and every
    [d] that keeps the shifted time between 1:00 AM and 11:59 PM, shifting
    by [d] and back by [-d] returns the string. *)
Theorem clock_roundtrip_in_day (other : string -> Z -> string) (h m : Z)
    (pm : bool) (d : Z) :
  valid_clock h m -> (h = 12 -> pm = true) ->
  60 <= minutesSinceMidnight h m pm + d < 1440 ->
  addMinutes other (addMinutes other (clockString h m pm) d) (- d)
  = clockString h m pm.
Proof. apply addMinutes_roundtrip. Qed.

Lemma clock_roundtrip_in_day_witness :
  valid_clock 9 30 /\ (9 = 12 -> false = true)
  /\ 60 <= minutesSinceMidnight 9 30 false + 200 < 1440
  /\ addMinutes sampleOther
       (addMinutes sampleOther (clockString 9 30 false) 200) (- 200)
     = clockString 9 30 false.
Proof.
  assert (Hv : valid_clock 9 30) by (unfold valid_clock; lia).
  assert (H12 : 9 = 12 -> false = true) by lia.
  assert (Hr : 60 <= minutesSinceMidnight 9 30 false + 200 < 1440)
    by (vm_compute; split; [discriminate|reflexivity]).
  split; [exact Hv|]. split; [exact H12|]. split; [exact Hr|].
  exact (clock_roundtrip_in_day sampleOther 9 30 false 200 Hv H12 Hr).
Defined.

(** X27.  When the study record's [allocated_time] is an integer other
    than 0 and no companion of the record lacks its [duration], the
    durations of the topic's sessions add up to its [allocated_time]. *)
Theorem breakdown_adds_up (schedule : list Item.t) (i : nat) (item : Item.t)
    (n : Z) :
  filter qualifies schedule !! i = Some item ->
  Item.allocated_time item = Val n -> n <> 0 ->
  (forall q, q ∈ schedule -> companion_of item q ->
     Item.duration q <> Undefined) ->
  exists tp, transformedPlan schedule !! i = Some tp
    /\ sessionsTotal (Transformed.sessions tp) = Transformed.allocated_time tp.
Proof.
  intros Hi Halloc Hn Hdur. exists (transformTopic schedule i item).
  split; [by rewrite transformedPlan_lookup, Hi|].
  unfold transformTopic, sessionsTotal; simpl. rewrite Halloc; simpl.
  replace (n =? 0) with false by (symmetry; by apply Z.eqb_neq).
  destruct (List.find (is_companion item) schedule) as [q|] eqn:Hfind; simpl.
  - apply find_some in Hfind as [Hin Hq].
    apply list_elem_of_In in Hin. apply is_companion_spec in Hq.
    specialize (Hdur q Hin Hq).
    destruct (Item.duration q) as [| |d]; simpl; [done|f_equal; lia|].
    destruct (Z.eqb_spec d 0); f_equal; lia.
  - f_equal; lia.
Qed.

Lemma breakdown_adds_up_witness :
  exists tp,
    transformedPlan
      [ studyItem (Val 1) (Val 30) (Val "9:30 AM");
        qnaItem (Val 1) (Val "9:40 AM") (Val 10) ] !! 0%nat = Some tp
    /\ sessionsTotal (Transformed.sessions tp) = Transformed.allocated_time tp.
Proof.
  apply (breakdown_adds_up _ 0 (studyItem (Val 1) (Val 30) (Val "9:30 AM")) 30);
    [reflexivity|reflexivity|lia|].
  intros q Hq [_ Htype].
  apply elem_of_cons in Hq as [->|Hq]; [discriminate Htype|].
  apply list_elem_of_singleton in Hq as ->. discriminate.
Defined.

(** X28.  The update as the source runs it, on an array of references to
    topic objects that it changes in place: when no object is referenced
    twice, the array returned is the one received and the topics it shows
    are those that the update on topic values computes. *)
Theorem reference_update_agrees (other : string -> Z -> string)
    (objs : gmap nat Topic) (plan : list nat) (topics : list Topic)
    (topicId actualTime : Z) :
  NoDup plan ->
  readPlan objs plan = Some <$> topics ->
  (updateTopicTimingRef other objs plan topicId actualTime).1 = plan
  /\ readPlan (updateTopicTimingRef other objs plan topicId actualTime).2 plan
     = Some <$> updateTopicTiming other topics topicId actualTime.
Proof. apply updateTopicTimingRef_refines. Qed.

Lemma reference_update_agrees_witness :
  NoDup (freshPlan samplePlan).1
  /\ readPlan (freshPlan samplePlan).2 (freshPlan samplePlan).1
     = Some <$> samplePlan
  /\ readPlan (updateTopicTimingRef sampleOther (freshPlan samplePlan).2
                 (freshPlan samplePlan).1 1 20).2 (freshPlan samplePlan).1
     = Some <$> updateTopicTiming sampleOther samplePlan 1 20.
Proof.
  destruct (freshPlan_ok samplePlan) as [Hnodup Hread].
  split; [exact Hnodup|]. split; [exact Hread|].
  apply (reference_update_agrees sampleOther _ _ samplePlan 1 20 Hnodup Hread).
Defined.
